(** * Booking orchestration layer of the calendar chatbot

    A shallow embedding of [calcom_api.py] (the calls to the booking
    service) and of the tool wrappers of [backend.py], with the
    properties of the specification stated over it.

    Conventions of the embedding:
    - a Python [datetime] is its wall-clock reading in microseconds since
      1970-01-01T00:00 together with the fixed offset its [tzinfo] carries
      (microsecond is the resolution of [datetime]); the readings a
      [datetime] can hold are those of the years 1 to 9999, and the
      arithmetic on values the caller supplies raises [OverflowError]
      where Python's does;
    - the timestamps of the service's records lie far enough inside that
      range for their conversion between zones;
    - the records decoded from the service's JSON are typed records; an
      attendee's time-zone name is the zone it denotes;
    - a function that calls the service is a computation over the trace of
      the events issued so far (requests and sleeps), returning a value or
      raising an exception; the service, the clock and the random source
      answer as functions of that trace;
    - console output ([print]) is not modelled. *)

From Stdlib Require Import ZArith QArith Lia Lqa String Ascii DecimalString.
From stdpp Require Import base gmap sets list strings sorting.

Local Open Scope Z_scope.

(** ** Strings *)

Definition str_of_Z (z : Z) : string := NilZero.string_of_int (Z.to_int z).

(** Python truthiness of a [str]. *)
Definition nonempty (s : string) : bool :=
  match s with EmptyString => false | String _ _ => true end.

(** Python truthiness of an [Optional[str]] and of an [Optional[int]]. *)
Definition truthy_str (o : option string) : bool :=
  match o with Some s => nonempty s | None => false end.

Definition truthy_int (o : option Z) : bool :=
  match o with Some n => negb (n =? 0) | None => false end.

(** [a or b] on optional strings. *)
Definition str_or (a : option string) (b : string) : string :=
  match a with
  | Some s => if nonempty s then s else b
  | None => b
  end.

(** [needle in hay]. *)
Fixpoint contains (needle hay : string) : bool :=
  String.prefix needle hay ||
  match hay with
  | EmptyString => false
  | String _ rest => contains needle rest
  end.

(** [sep.join(parts)]. *)
Fixpoint join (sep : string) (parts : list string) : string :=
  match parts with
  | [] => EmptyString
  | [p] => p
  | p :: ps => p +:+ sep +:+ join sep ps
  end.

Definition pad2 (n : Z) : string :=
  if n <? 10 then "0" +:+ str_of_Z n else str_of_Z n.

Definition pad4 (n : Z) : string :=
  if n <? 10 then "000" +:+ str_of_Z n
  else if n <? 100 then "00" +:+ str_of_Z n
  else if n <? 1000 then "0" +:+ str_of_Z n
  else str_of_Z n.

(** ** Calendar arithmetic behind [datetime] *)

Definition usec_per_second : Z := 1000000.
Definition usec_per_minute : Z := 60 * usec_per_second.
Definition usec_per_hour : Z := 60 * usec_per_minute.
Definition usec_per_day : Z := 24 * usec_per_hour.

(** Days since 1970-01-01 of a proleptic Gregorian date. *)
Definition days_from_civil (y m d : Z) : Z :=
  let y' := if m <=? 2 then y - 1 else y in
  let era := y' / 400 in
  let yoe := y' - era * 400 in
  let mp := if 2 <? m then m - 3 else m + 9 in
  let doy := (153 * mp + 2) / 5 + d - 1 in
  let doe := yoe * 365 + yoe / 4 - yoe / 100 + doy in
  era * 146097 + doe - 719468.

Definition civil_from_days (z : Z) : Z * Z * Z :=
  let z' := z + 719468 in
  let era := z' / 146097 in
  let doe := z' - era * 146097 in
  let yoe := (doe - doe / 1460 + doe / 36524 - doe / 146096) / 365 in
  let doy := doe - (365 * yoe + yoe / 4 - yoe / 100) in
  let mp := (5 * doy + 2) / 153 in
  let d := doy - (153 * mp + 2) / 5 + 1 in
  let m := if mp <? 10 then mp + 3 else mp - 9 in
  let y := yoe + era * 400 in
  (if m <=? 2 then y + 1 else y, m, d).

Definition is_leap (y : Z) : bool :=
  ((y mod 4 =? 0) && negb (y mod 100 =? 0)) || (y mod 400 =? 0).

Definition days_in_month (y m : Z) : Z :=
  if m =? 2 then (if is_leap y then 29 else 28)
  else if (m =? 4) || (m =? 6) || (m =? 9) || (m =? 11) then 30
  else 31.

(** Wall-clock microseconds of [datetime(y, m, d, hh, mm)]. *)
Definition wall_of_civil (y m d hh mm : Z) : Z :=
  days_from_civil y m d * usec_per_day + hh * usec_per_hour + mm * usec_per_minute.

(** ** [datetime], [timedelta], [pytz] *)

(** What the [tzinfo] attached to an aware datetime knows: the offset from
    UTC (microseconds) and the abbreviation printed by [%Z]. *)
Record tzfix := { utcoffset : Z; tzabbr : string }.

Record datetime := { wall : Z; tzinfo : option tzfix }.

(** A [pytz] zone: its name, whether it is a zone with transitions (a
    [DstTzInfo]; the others are [UTC] and the [StaticTzInfo] zones), and
    the offset in force at a UTC instant ([astimezone], [now]) and at a
    wall-clock reading ([localize]). *)
Record TimeZone := {
  zone : string;
  transitions : bool;
  at_utc : Z -> tzfix;
  at_wall : Z -> tzfix
}.

(** [datetime.min] and [datetime.max], as wall-clock readings. *)
Definition datetime_min : Z := wall_of_civil 1 1 1 0 0.
Definition datetime_max : Z := wall_of_civil 10000 1 1 0 0 - 1.

Definition representable (w : Z) : bool :=
  (datetime_min <=? w) && (w <=? datetime_max).

Definition utc_fix : tzfix := {| utcoffset := 0; tzabbr := "UTC" |}.

(** The instant of an aware datetime, in microseconds since the epoch. *)
Definition instant (dt : datetime) : Z :=
  match tzinfo dt with
  | Some f => wall dt - utcoffset f
  | None => wall dt
  end.

Definition naive (w : Z) : datetime := {| wall := w; tzinfo := None |}.

(** [datetime.fromisoformat(s.replace('Z', '+00:00'))] for the UTC
    timestamp the service sends, given as its instant. *)
Definition fromisoformat (i : Z) : datetime :=
  {| wall := i; tzinfo := Some utc_fix |}.

(** [tz.localize(dt)] of a naive datetime.  A zone with transitions
    looks for the offset around [dt - timedelta(days=1)] and
    [dt + timedelta(days=1)], which must both be representable; the other
    zones only attach their [tzinfo].  [None] stands for the
    [OverflowError] of that arithmetic. *)
Definition localize (tz : TimeZone) (dt : datetime) : option datetime :=
  if transitions tz
     && negb (representable (wall dt - usec_per_day)
              && representable (wall dt + usec_per_day))
  then None
  else Some {| wall := wall dt; tzinfo := Some (at_wall tz (wall dt)) |}.

(** [dt.astimezone(tz)]. *)
Definition astimezone (tz : TimeZone) (dt : datetime) : datetime :=
  let f := at_utc tz (instant dt) in
  {| wall := instant dt + utcoffset f; tzinfo := Some f |}.

(** The days of [timedelta(minutes=n)] once normalized (seconds and
    microseconds are kept within a day). *)
Definition timedelta_days (n : Z) : Z := n * usec_per_minute / usec_per_day.

(** [timedelta(minutes=n)], in microseconds.  [None] stands for the
    [OverflowError] of a duration of more than 999999999 days in
    magnitude. *)
Definition timedelta_minutes (n : Z) : option Z :=
  if (-999999999 <=? timedelta_days n) && (timedelta_days n <=? 999999999)
  then Some (n * usec_per_minute) else None.

(** [str(e)] of that [OverflowError], as CPython words it: the day count
    is first converted to a C [int]. *)
Definition timedelta_overflow (n : Z) : string :=
  if (- 2 ^ 31 <=? timedelta_days n) && (timedelta_days n <? 2 ^ 31) then
    "days=" +:+ str_of_Z (timedelta_days n)
    +:+ "; must have magnitude <= 999999999"
  else "Python int too large to convert to C int".

(** [dt + delta]: the wall clock moves, the [tzinfo] stays.  [None] stands
    for the [OverflowError] of a result outside the years 1 to 9999. *)
Definition dt_add (dt : datetime) (delta : Z) : option datetime :=
  if representable (wall dt + delta)
  then Some {| wall := wall dt + delta; tzinfo := tzinfo dt |}
  else None.

(** [a - b] and [a < b] on aware datetimes compare instants. *)
Definition dt_sub (a b : datetime) : Z := instant a - instant b.
Definition dt_lt (a b : datetime) : bool := instant a <? instant b.

(** *** [strptime(s, "%Y-%m-%d %H:%M")]

    The directives are matched as CPython's [_strptime] does: [%Y] is
    four digits, the others one or two digits within their range ([%d]
    also a space and one digit), the blank of the format one or more
    whitespace characters, and nothing may remain. *)

Definition is_digit (c : ascii) : bool :=
  let n := Z.of_nat (nat_of_ascii c) in (48 <=? n) && (n <=? 57).

Definition digit_val (c : ascii) : Z := Z.of_nat (nat_of_ascii c) - 48.

Definition is_space (c : ascii) : bool :=
  let n := Z.of_nat (nat_of_ascii c) in
  ((9 <=? n) && (n <=? 13)) || ((28 <=? n) && (n <=? 32)).

(** The leading run of digits: its value, its length, and the rest. *)
Fixpoint digits (acc : Z) (len : nat) (s : string) : Z * nat * string :=
  match s with
  | String c rest =>
      if is_digit c then digits (10 * acc + digit_val c) (S len) rest
      else (acc, len, s)
  | EmptyString => (acc, len, s)
  end.

Definition field (minlen maxlen : nat) (lo hi : Z) (s : string)
  : option (Z * string) :=
  let '(v, len, rest) := digits 0 0 s in
  if (Nat.leb minlen len) && (Nat.leb len maxlen) && (lo <=? v) && (v <=? hi)
  then Some (v, rest) else None.

Definition expect (c : ascii) (s : string) : option string :=
  match s with
  | String c' rest => if Ascii.eqb c c' then Some rest else None
  | EmptyString => None
  end.

Fixpoint skip_spaces (s : string) : string :=
  match s with
  | String c rest => if is_space c then skip_spaces rest else s
  | EmptyString => s
  end.

Definition spaces1 (s : string) : option string :=
  match s with
  | String c rest => if is_space c then Some (skip_spaces rest) else None
  | EmptyString => None
  end.

Definition day_field (s : string) : option (Z * string) :=
  match s with
  | String c (String d rest) =>
      if Ascii.eqb c " " then
        if is_digit d && negb (Ascii.eqb d "0") then Some (digit_val d, rest)
        else None
      else field 1 2 1 31 s
  | _ => field 1 2 1 31 s
  end.

(** [None] stands for the [ValueError] of [strptime]. *)
Definition strptime (s : string) : option datetime :=
  '(y, s) ← field 4 4 0 9999 s;
  s ← expect "-" s;
  '(m, s) ← field 1 2 1 12 s;
  s ← expect "-" s;
  '(d, s) ← day_field s;
  s ← spaces1 s;
  '(hh, s) ← field 1 2 0 23 s;
  s ← expect ":" s;
  '(mm, s) ← field 1 2 0 59 s;
  if negb (nonempty s) && (1 <=? y) && (d <=? days_in_month y m)
  then Some (naive (wall_of_civil y m d hh mm)) else None.

(** *** [strftime] *)

Definition date_of (dt : datetime) : Z * Z * Z :=
  civil_from_days (wall dt / usec_per_day).
Definition hour_of (dt : datetime) : Z :=
  (wall dt mod usec_per_day) / usec_per_hour.
Definition minute_of (dt : datetime) : Z :=
  ((wall dt mod usec_per_day) / usec_per_minute) mod 60.
Definition second_of (dt : datetime) : Z :=
  ((wall dt mod usec_per_day) / usec_per_second) mod 60.

Definition fmt_date (dt : datetime) : string :=
  let '(y, m, d) := date_of dt in
  pad4 y +:+ "-" +:+ pad2 m +:+ "-" +:+ pad2 d.

(** [dt.strftime("%Y-%m-%dT%H:%M:00")]. *)
Definition strftime_minute (dt : datetime) : string :=
  fmt_date dt +:+ "T" +:+ pad2 (hour_of dt) +:+ ":" +:+ pad2 (minute_of dt)
  +:+ ":00".

(** [dt.strftime("%Y-%m-%d %H:%M:%S %Z")]. *)
Definition strftime_seconds_zone (dt : datetime) : string :=
  fmt_date dt +:+ " " +:+ pad2 (hour_of dt) +:+ ":" +:+ pad2 (minute_of dt)
  +:+ ":" +:+ pad2 (second_of dt) +:+ " " +:+
  match tzinfo dt with Some f => tzabbr f | None => EmptyString end.

(** ** Duration normalizer *)

(** Python's [min(l, key=k)] on a non-empty list [x :: xs]: the first
    element whose key is minimal (a later element replaces the current
    one only when its key is strictly smaller). *)
Definition min_by (key : Z -> Z) (x : Z) (xs : list Z) : Z :=
  fold_left (fun best y => if key y <? key best then y else best) xs x.

Definition valid_durations : list Z :=
  [5; 10; 15; 20; 25; 30; 45; 50; 60; 75; 80; 90; 120; 150; 180; 240; 300;
   360; 420; 480].

Definition find_closest_duration (duration : Z) : Z :=
  match valid_durations with
  | x :: xs => min_by (fun x => Z.abs (x - duration)) x xs
  | [] => 0
  end.

(** ** Records of the booking service *)

Record Attendee := {
  email : string;
  timeZone : TimeZone;
  locale : string
}.

Record Booking := {
  id : Z;
  status : option string;
  attendees : list Attendee;
  startTime : Z;               (* UTC instant, microseconds *)
  endTime : Z;
  description : option string;
  videoCallUrl : option string (* metadata.videoCallUrl *)
}.

Record Reference := {
  ref_id : Z;
  bookingId : Z;
  deleted : option string
}.

(** The JSON object of a response body, by the keys the code reads. *)
Record Body := {
  booking_references : option (list Reference);
  booking : option Booking;
  message : option string;
  metadata_videoCallUrl : option string
}.

Record Response := {
  status_code : Z;
  reason_phrase : string;
  body : Body
}.

Inductive Method := GET | POST | DELETE | PATCH.

Definition method_eqb (a b : Method) : bool :=
  match a, b with
  | GET, GET | POST, POST | DELETE, DELETE | PATCH, PATCH => true
  | _, _ => false
  end.

Inductive Payload :=
| NoPayload
| CreatePayload (start end_ : datetime) (eventTypeId : Z)
    (name email notes timeZone language : string)
| UpdatePayload (startTime endTime : datetime).

Record Request := {
  method : Method;
  url : string;
  params : list (string * string);
  json : Payload
}.

(** What [requests.request] meets: a response, or a failure of the
    transport (connection error, timeout). *)
Inductive Reply :=
| Responded (r : Response)
| Failed (msg : string).

Inductive Event :=
| EvRequest (r : Request)
| EvSleep (seconds : Q).

(** ** Exceptions *)

Inductive Exn :=
| HTTPError (msg : string) (response : Response)
| TransportError (msg : string)     (* a RequestException other than HTTPError *)
| ValueError (msg : string)
| AttributeError (msg : string)
| IndexError (msg : string)
| OverflowError (msg : string)
| LocaleError (msg : string)        (* locale.Error *)
| UnboundLocalError (msg : string)
| CalComBookingException (msg : string)
| ToolException (msg : string).

Definition is_RequestException (e : Exn) : bool :=
  match e with
  | HTTPError _ _ | TransportError _ => true
  | _ => false
  end.

(** [str(e)]. *)
Definition exn_str (e : Exn) : string :=
  match e with
  | HTTPError msg _ => msg
  | TransportError msg | ValueError msg | AttributeError msg
  | IndexError msg | OverflowError msg | LocaleError msg
  | UnboundLocalError msg | CalComBookingException msg
  | ToolException msg => msg
  end.

Inductive Outcome (A : Type) :=
| Ret (a : A)
| Raise (e : Exn).
Arguments Ret {A} a.
Arguments Raise {A} e.

(** The [OverflowError] of [datetime] arithmetic. *)
Definition date_overflow : Exn := OverflowError "date value out of range".

Definition or_raise {A} (e : Exn) (o : option A) : Outcome A :=
  match o with
  | Some a => Ret a
  | None => Raise e
  end.

(** ** Values handed back to the agent *)

(** The value of which [json.dumps] renders the text. *)
#[local] Set Warnings "-register-all".
Inductive Json :=
| JNull
| JStr (s : string)
| JList (l : list Json)
| JObj (fields : list (string * Json)).

(** Text with the renderings of structured values left symbolic. *)
Inductive Fragment :=
| Lit (s : string)
| Dump (j : Json)               (* the text [json.dumps] gives *)
| Repr (j : Json)               (* [str()] of the value [json.loads] gives *)
| ReprBody (b : option Body).   (* [str()] of a decoded response body, or of [None] *)

Definition Text := list Fragment.

Definition json_opt (o : option string) : Json :=
  match o with Some s => JStr s | None => JNull end.

Definition error_obj (msg : string) : Json := JObj [("error", JStr msg)].

(** ** The environment of a run *)

(** What [locale.setlocale(locale.LC_ALL, '')] followed by
    [locale.getlocale()[0]] meets. *)
Inductive LocaleLookup :=
| UnsupportedLocale                (* [setlocale] raises [locale.Error] *)
| UnknownLocale (name : string)    (* [getlocale] raises [ValueError] *)
| NoLocaleName                     (* the C locale: the name is [None] *)
| LocaleName (name : string).      (* for instance [en_US] *)

(** [name.split('_')[0]]. *)
Fixpoint before_underscore (name : string) : string :=
  match name with
  | EmptyString => EmptyString
  | String c rest =>
      if Ascii.eqb c "_" then EmptyString else String c (before_underscore rest)
  end.

Record Env := {
  (** the service: its answer to a request after the events so far *)
  respond : list Event -> Request -> Reply;
  (** the clock: the UTC instant read after the events so far *)
  now_utc : list Event -> Z;
  (** [random.uniform(0, 1)] *)
  uniform01 : list Event -> Q;
  (** [get_localzone()] *)
  local_zone : TimeZone;
  (** the locale of the user's environment *)
  system_locale : LocaleLookup;
  (** the locale's month names ([%B]) and AM/PM marks ([%p]) *)
  month_name : Z -> string;
  am_pm : bool -> string;
  CAL_API_KEY : string
}.

(** ** Computations *)

Definition M (A : Type) : Type := list Event -> Outcome A * list Event.

Definition ret {A} (a : A) : M A := fun t => (Ret a, t).

Definition raise {A} (e : Exn) : M A := fun t => (Raise e, t).

Definition bind {A B} (m : M A) (k : A -> M B) : M B :=
  fun t =>
    match m t with
    | (Ret a, t') => k a t'
    | (Raise e, t') => (Raise e, t')
    end.

(** [try: m  except ...: h e], where [h e = None] when no clause of the
    handler catches [e]. *)
Definition try_except {A} (m : M A) (h : Exn -> option (M A)) : M A :=
  fun t =>
    match m t with
    | (Ret a, t') => (Ret a, t')
    | (Raise e, t') =>
        match h e with
        | Some k => k t'
        | None => (Raise e, t')
        end
    end.

Declare Scope comp_scope.
Delimit Scope comp_scope with comp.
Notation "x <- m ;; k" := (bind m (fun x => k))
  (at level 100, m at next level, right associativity) : comp_scope.
Notation "m ;;; k" := (bind m (fun _ => k))
  (at level 100, right associativity) : comp_scope.
Local Open Scope comp_scope.

(** Use of a value that may be Python's [None]. *)
Definition deref {A} (what : string) (o : option A) : M A :=
  match o with
  | Some a => ret a
  | None =>
      raise (AttributeError ("'NoneType' object has no attribute '" +:+ what +:+ "'"))
  end.

(** A computation that only yields an outcome. *)
Definition lift {A} (o : Outcome A) : M A := fun t => (o, t).

Section Run.

Variable env : Env.

Definition requests_request (req : Request) : M Response :=
  fun t =>
    match respond env t req with
    | Responded r => (Ret r, t ++ [EvRequest req])
    | Failed msg => (Raise (TransportError msg), t ++ [EvRequest req])
    end.

Definition time_sleep (seconds : Q) : M unit :=
  fun t => (Ret tt, t ++ [EvSleep seconds]).

Definition random_uniform01 : M Q :=
  fun t => (Ret (uniform01 env t), t).

(** [datetime.now(tz)]. *)
Definition datetime_now (tz : TimeZone) : M datetime :=
  fun t => (Ret (astimezone tz (fromisoformat (now_utc env t))), t).

(** [response.raise_for_status()]. *)
Definition raise_for_status (u : string) (r : Response) : M unit :=
  if (400 <=? status_code r) && (status_code r <? 500) then
    raise (HTTPError (str_of_Z (status_code r) +:+ " Client Error: "
                      +:+ reason_phrase r +:+ " for url: " +:+ u) r)
  else if (500 <=? status_code r) && (status_code r <? 600) then
    raise (HTTPError (str_of_Z (status_code r) +:+ " Server Error: "
                      +:+ reason_phrase r +:+ " for url: " +:+ u) r)
  else ret tt.

(** ** Retrying transport *)

Definition max_retries : Z := 5.

(** The [for attempt in range(max_retries)] loop of the wrapper, from
    [attempt] on with [remaining] iterations to go.  Falling out of the
    loop returns Python's [None]. *)
Fixpoint retry_loop {A} (func : M A) (remaining : nat) (attempt : Z)
    (retry_delay : Z) : M (option A) :=
  match remaining with
  | O => ret None
  | S remaining' =>
      try_except (a <- func ;; ret (Some a))
        (fun e =>
           match e with
           | HTTPError _ response =>
               if status_code response =? 429 then
                 if attempt =? max_retries - 1 then None
                 else Some (
                   jitter <- random_uniform01 ;;
                   time_sleep (inject_Z retry_delay + jitter)%Q ;;;
                   retry_loop func remaining' (attempt + 1) (retry_delay * 2))
               else None
           | _ => None
           end)
  end.

Definition retry_with_backoff {A} (func : M A) : M (option A) :=
  retry_loop func (Z.to_nat max_retries) 0 1.

(** The body of [make_api_request], before its decorator. *)
Definition make_api_request_body (req : Request) : M Response :=
  response <- requests_request req ;;
  raise_for_status (url req) response ;;;
  ret response.

Definition make_api_request (req : Request) : M (option Response) :=
  retry_with_backoff (make_api_request_body req).

(** ** Booking creation *)

Definition get_system_info : M (TimeZone * string) :=
  let timezone := local_zone env in
  match system_locale env with
  | UnsupportedLocale => raise (LocaleError "unsupported locale setting")
  | UnknownLocale name => raise (ValueError ("unknown locale: " +:+ name))
  | NoLocaleName =>
      raise (AttributeError "'NoneType' object has no attribute 'split'")
  | LocaleName name => ret (timezone, before_underscore name)
  end.

Definition bookings_url : string := "https://api.cal.com/v1/bookings".
Definition booking_references_url : string :=
  "https://api.cal.com/v1/booking-references".

Definition api_key_params : list (string * string) :=
  [("apiKey", CAL_API_KEY env)].

(** [dt.strftime("%B %d, %Y")] and [dt.strftime("%I:%M %p")]. *)
Definition strftime_long_date (dt : datetime) : string :=
  let '(y, m, d) := date_of dt in
  month_name env m +:+ " " +:+ pad2 d +:+ ", " +:+ pad4 y.

Definition strftime_12h (dt : datetime) : string :=
  let h := hour_of dt in
  let h12 := if h mod 12 =? 0 then 12 else h mod 12 in
  pad2 h12 +:+ ":" +:+ pad2 (minute_of dt) +:+ " " +:+ am_pm env (h <? 12).

(** The classification of the service's error message (lines 123-145). *)
Definition create_error (duration adjusted_duration : Z)
    (date time reason name email error_message : string) : Json :=
  if contains "Invalid event length" error_message then
    error_obj ("Error: The requested duration (" +:+ str_of_Z duration
      +:+ " minutes) is not valid. The closest valid duration ("
      +:+ str_of_Z adjusted_duration +:+ " minutes) will be used instead.")
  else if contains "Attempting to book a meeting in the past" error_message then
    error_obj "Error: Cannot book a meeting in the past. Please choose a future date and time."
  else if contains "invalid_type" error_message then
    let missing_fields :=
      (if nonempty name then [] else ["name"]) ++
      (if nonempty email then [] else ["email"]) ++
      (if nonempty date && nonempty time then [] else ["date and time"]) ++
      (if nonempty reason then [] else ["reason"]) in
    match missing_fields with
    | _ :: _ =>
        error_obj ("Error: Missing required information. Please provide: "
                   +:+ join ", " missing_fields +:+ ".")
    | [] =>
        error_obj "Error: Invalid input. Please check all provided information and try again."
    end
  else error_obj ("Error creating booking: " +:+ error_message).

(** [get_system_info] is called outside the [try] blocks: what it raises
    leaves the function.  Of what the block of lines 75-86 can raise, its
    [except ValueError] catches the error of [strptime]; the
    [OverflowError] of [localize] and of [start_time + timedelta(...)]
    leaves the function too. *)
Definition create_booking (date time : string) (duration : Z)
    (reason name email : string) : M Json :=
  info <- get_system_info ;;
  let '(timezone, language) := info in
  let adjusted_duration := find_closest_duration duration in
  match strptime (date +:+ " " +:+ time) with
  | None =>
      ret (error_obj "Invalid date or time format. Please use YYYY-MM-DD for date and HH:MM for time.")
  | Some parsed =>
      let local_tz := timezone in
      start_time <- lift (or_raise date_overflow (localize local_tz parsed)) ;;
      delta <- lift (or_raise (OverflowError (timedelta_overflow adjusted_duration))
                       (timedelta_minutes adjusted_duration)) ;;
      end_time <- lift (or_raise date_overflow (dt_add start_time delta)) ;;
      now <- datetime_now local_tz ;;
      if dt_lt start_time now then
        ret (error_obj "Cannot book a meeting in the past. Please choose a future date and time.")
      else
        let payload :=
          CreatePayload start_time end_time 1202446 name email reason
            (zone timezone) language in
        try_except (
          response <- requests_request
            {| method := POST; url := bookings_url;
               params := api_key_params; json := payload |} ;;
          if status_code response =? 200 then
            ret (JObj [
              ("Date", JStr (strftime_long_date start_time));
              ("Time", JStr (strftime_12h start_time +:+ " to "
                             +:+ strftime_12h end_time +:+ " ("
                             +:+ zone timezone +:+ ")"));
              ("Duration", JStr (str_of_Z adjusted_duration +:+ " minutes"));
              ("Reason", JStr reason);
              ("Name", JStr name);
              ("Email", JStr email);
              ("Meeting Link",
               JStr (default "No video call link provided"
                       (metadata_videoCallUrl (body response))))])
          else
            let error_message :=
              default "Unknown error" (message (body response)) in
            ret (create_error duration adjusted_duration date time reason name
                   email error_message))
          (fun e =>
             if is_RequestException e then
               Some (ret (error_obj ("Error creating booking: " +:+ exn_str e)))
             else None)
  end.

(** ** Booking retrieval *)

Definition booking_url (booking_id : Z) : string :=
  "https://api.cal.com/v1/bookings/" +:+ str_of_Z booking_id.

Definition get_request (u : string) : Request :=
  {| method := GET; url := u; params := api_key_params; json := NoPayload |}.

Definition is_user_booking (user_email : string) (b : Booking) : bool :=
  negb (bool_decide (status b = Some "CANCELLED")) &&
  existsb (fun attendee => String.eqb (email attendee) user_email) (attendees b).

(** The loop over [unique_booking_ids] (lines 169-177). *)
Fixpoint fetch_user_bookings (user_email : string) (ids : list Z)
    (user_bookings : list Booking) : M (list Booking) :=
  match ids with
  | [] => ret user_bookings
  | booking_id :: ids' =>
      booking_response <- make_api_request (get_request (booking_url booking_id)) ;;
      r <- deref "json" booking_response ;;
      match booking (body r) with
      | Some booking_data =>
          if is_user_booking user_email booking_data then
            fetch_user_bookings user_email ids' (user_bookings ++ [booking_data])
          else fetch_user_bookings user_email ids' user_bookings
      | None =>
          (* [{}]: no attendee, hence not the user's *)
          fetch_user_bookings user_email ids' user_bookings
      end
  end.

Definition unique_booking_ids (booking_references : list Reference) : gset Z :=
  list_to_set
    (bookingId <$>
       List.filter (fun ref => bool_decide (deleted ref = None)) booking_references).

Definition _get_user_bookings_detailed (user_email : string) : M (list Booking) :=
  try_except (
    response <- make_api_request (get_request booking_references_url) ;;
    r <- deref "json" response ;;
    let booking_references := default [] (booking_references (body r)) in
    fetch_user_bookings user_email
      (elements (unique_booking_ids booking_references)) [])
    (fun e => if is_RequestException e then Some (ret []) else None).

Definition attendee_of (user_email : string) (b : Booking) : option Attendee :=
  List.find (fun attendee => String.eqb (email attendee) user_email) (attendees b).

Definition simplified_booking (user_email : string) (booking_data : Booking)
  : Json :=
  let user_timezone := timeZone <$> attendee_of user_email booking_data in
  let start_time := fromisoformat (startTime booking_data) in
  let end_time := fromisoformat (endTime booking_data) in
  let '(start_time, end_time) :=
    match user_timezone with
    | Some user_tz => (astimezone user_tz start_time, astimezone user_tz end_time)
    | None => (start_time, end_time)
    end in
  JObj [
    ("startTime", JStr (strftime_seconds_zone start_time));
    ("endTime", JStr (strftime_seconds_zone end_time));
    ("description", json_opt (description booking_data));
    ("timezone", json_opt (zone <$> user_timezone));
    ("locale", json_opt (locale <$> attendee_of user_email booking_data));
    ("videoCallUrl", json_opt (videoCallUrl booking_data))].

Definition get_user_bookings (user_email : string) : M Json :=
  try_except (
    detailed_bookings <- _get_user_bookings_detailed user_email ;;
    let user_bookings := simplified_booking user_email <$> detailed_bookings in
    ret (JObj [("user_bookings", JList user_bookings)]))
    (fun e =>
       if is_RequestException e then
         Some (ret (error_obj ("Error fetching user bookings: " +:+ exn_str e)))
       else None).

(** ** Booking lookup *)

(** [booking['attendees'][0]]. *)
Definition first_attendee (b : Booking) : M Attendee :=
  match attendees b with
  | a :: _ => ret a
  | [] => raise (IndexError "list index out of range")
  end.

(** The loop of lines 249-256. *)
Fixpoint find_matching (target_datetime : string) (user_bookings : list Booking)
  : M (option Booking) :=
  match user_bookings with
  | [] => ret None
  | booking :: rest =>
      let booking_time := fromisoformat (startTime booking) in
      a <- first_attendee booking ;;
      let user_timezone := timeZone a in
      let localized_booking_time := astimezone user_timezone booking_time in
      if String.eqb (strftime_minute localized_booking_time) target_datetime
      then ret (Some booking)
      else find_matching target_datetime rest
  end.

Definition _find_booking (user_email meeting_date meeting_time : string)
  : M (option Booking) :=
  user_bookings <- _get_user_bookings_detailed user_email ;;
  let target_datetime := meeting_date +:+ "T" +:+ meeting_time +:+ ":00" in
  find_matching target_datetime user_bookings.

(** ** Booking cancellation *)

Definition cancel_url (booking_id : Z) : string :=
  "https://api.cal.com/v1/bookings/" +:+ str_of_Z booking_id +:+ "/cancel".

Definition reference_url (reference_id : Z) : string :=
  "https://api.cal.com/v1/booking-references/" +:+ str_of_Z reference_id.

Definition delete_request (u : string) (querystring : list (string * string))
  : Request :=
  {| method := DELETE; url := u; params := querystring; json := NoPayload |}.

(** The loop over the references (lines 294-304). *)
Fixpoint delete_booking_reference (user_email meeting_date meeting_time : string)
    (booking_id : Z) (booking_references : list Reference) : M string :=
  match booking_references with
  | [] =>
      ret ("Successfully cancelled booking for " +:+ user_email +:+ " on "
           +:+ meeting_date +:+ " at " +:+ meeting_time
           +:+ ", but no matching reference found to delete")
  | reference :: rest =>
      if bookingId reference =? booking_id then
        delete_response <-
          make_api_request (delete_request (reference_url (ref_id reference))
                              api_key_params) ;;
        dr <- deref "status_code" delete_response ;;
        if status_code dr =? 200 then
          ret ("Successfully cancelled booking and deleted reference for "
               +:+ user_email +:+ " on " +:+ meeting_date +:+ " at "
               +:+ meeting_time)
        else
          ret ("Booking cancelled but error deleting reference: "
               +:+ default "Unknown error" (message (body dr)))
      else
        delete_booking_reference user_email meeting_date meeting_time
          booking_id rest
  end.

Definition cancel_user_booking (user_email meeting_date meeting_time : string)
    (cancellation_reason : option string) : M string :=
  matching_booking <- _find_booking user_email meeting_date meeting_time ;;
  match matching_booking with
  | None =>
      ret ("Error: No booking found for " +:+ user_email +:+ " on "
           +:+ meeting_date +:+ " at " +:+ meeting_time)
  | Some matching_booking =>
      let booking_id := id matching_booking in
      let querystring :=
        api_key_params ++
        match cancellation_reason with
        | Some r => if nonempty r then [("cancellationReason", r)] else []
        | None => []
        end in
      try_except (
        cancel_response <-
          make_api_request (delete_request (cancel_url booking_id) querystring) ;;
        cr <- deref "status_code" cancel_response ;;
        if status_code cr =? 200 then
          references_response <-
            make_api_request (get_request booking_references_url) ;;
          rr <- deref "json" references_response ;;
          let booking_references := default [] (booking_references (body rr)) in
          delete_booking_reference user_email meeting_date meeting_time
            booking_id booking_references
        else
          ret ("Error cancelling booking: "
               +:+ default "Unknown error" (message (body cr))))
        (fun e =>
           if is_RequestException e then
             Some (ret ("Error cancelling booking or deleting reference: "
                        +:+ exn_str e))
           else None)
  end.

(** ** Booking reference management *)

(** [booking_data.get('status') == "CANCELLED"], for the booking of a
    response body ([{}] when the key is missing). *)
Definition is_cancelled (booking_data : option Booking) : bool :=
  match booking_data with
  | Some b => bool_decide (status b = Some "CANCELLED")
  | None => false
  end.

(** The loop of lines 327-345. *)
Fixpoint remove_cancelled_loop (booking_references : list Reference)
    (cancelled_refs_removed : Z) : M Z :=
  match booking_references with
  | [] => ret cancelled_refs_removed
  | reference :: rest =>
      let booking_id := bookingId reference in
      let reference_id := ref_id reference in
      booking_response <- make_api_request (get_request (booking_url booking_id)) ;;
      r <- deref "json" booking_response ;;
      let booking_data := booking (body r) in
      if is_cancelled booking_data then
        delete_response <-
          make_api_request (delete_request (reference_url reference_id)
                              api_key_params) ;;
        dr <- deref "status_code" delete_response ;;
        if status_code dr =? 200 then
          remove_cancelled_loop rest (cancelled_refs_removed + 1)
        else remove_cancelled_loop rest cancelled_refs_removed
      else remove_cancelled_loop rest cancelled_refs_removed
  end.

Definition _remove_cancelled_booking_references : M string :=
  try_except (
    response <- make_api_request (get_request booking_references_url) ;;
    r <- deref "json" response ;;
    let booking_references := default [] (booking_references (body r)) in
    cancelled_refs_removed <- remove_cancelled_loop booking_references 0 ;;
    ret ("Successfully removed " +:+ str_of_Z cancelled_refs_removed
         +:+ " cancelled booking references."))
    (fun e =>
       if is_RequestException e then
         Some (ret ("Error removing cancelled booking references: "
                    +:+ exn_str e))
       else None).

(** ** Rescheduling *)

(** Lines 383-390: the new start.  The [ValueError] of a string that
    [strptime] does not parse is worded as for a string that does not match
    the format. *)
Definition new_start_time (matching_booking : Booking) (local_tz : TimeZone)
    (meeting_date meeting_time : string) (new_date new_time : option string)
  : Outcome datetime :=
  if truthy_str new_date || truthy_str new_time then
    let new_date := str_or new_date meeting_date in
    let new_time := str_or new_time meeting_time in
    match strptime (new_date +:+ " " +:+ new_time) with
    | None =>
        Raise (ValueError ("time data '" +:+ new_date +:+ " " +:+ new_time
                           +:+ "' does not match format '%Y-%m-%d %H:%M'"))
    | Some start_time => or_raise date_overflow (localize local_tz start_time)
    end
  else Ret (fromisoformat (startTime matching_booking)).

(** Lines 392-398: the new end, computed before the start is compared
    with the clock. *)
Definition new_end_time (matching_booking : Booking) (start_time : datetime)
    (new_duration : option Z) : Outcome datetime :=
  let original_duration :=
    dt_sub (fromisoformat (endTime matching_booking))
           (fromisoformat (startTime matching_booking)) in
  match new_duration with
  | Some d =>
      if negb (d =? 0) then
        match timedelta_minutes d with
        | Some delta => or_raise date_overflow (dt_add start_time delta)
        | None => Raise (OverflowError (timedelta_overflow d))
        end
      else or_raise date_overflow (dt_add start_time original_duration)
  | None => or_raise date_overflow (dt_add start_time original_duration)
  end.

Definition patch_request (booking_id : Z) (start_time end_time : datetime)
  : Request :=
  {| method := PATCH; url := booking_url booking_id;
     params := api_key_params; json := UpdatePayload start_time end_time |}.

(** The body of [reschedule_booking], before its decorator.  In the handler
    of line 415, [response] is bound exactly when the exception comes from
    [raise_for_status], that is when it is an [HTTPError]; otherwise reading
    [response.text] raises [UnboundLocalError]. *)
Definition reschedule_booking_body (user_email meeting_date meeting_time : string)
    (new_date new_time : option string) (new_duration : option Z) : M Body :=
  if negb (truthy_str new_date) && negb (truthy_str new_time)
     && negb (truthy_int new_duration) then
    raise (ValueError "No new values provided for rescheduling")
  else
    matching_booking <- _find_booking user_email meeting_date meeting_time ;;
    match matching_booking with
    | None =>
        raise (ValueError ("No booking found for " +:+ user_email +:+ " on "
                           +:+ meeting_date +:+ " at " +:+ meeting_time))
    | Some matching_booking =>
        let booking_id := id matching_booking in
        a <- first_attendee matching_booking ;;
        let local_tz := timeZone a in
        start_time <- lift (new_start_time matching_booking local_tz
                              meeting_date meeting_time new_date new_time) ;;
        end_time <- lift (new_end_time matching_booking start_time
                            new_duration) ;;
        now <- datetime_now local_tz ;;
        if dt_lt start_time now then
          raise (ValueError "Cannot reschedule a meeting to a past date and time. Please choose a future date and time.")
        else
          try_except (
            response <- requests_request
                          (patch_request booking_id start_time end_time) ;;
            raise_for_status (booking_url booking_id) response ;;;
            ret (body response))
            (fun e =>
               match e with
               | HTTPError _ _ => Some (raise e)
               | TransportError _ =>
                   Some (raise (UnboundLocalError
                     "cannot access local variable 'response' where it is not associated with a value"))
               | _ => None
               end)
    end.

Definition reschedule_booking (user_email meeting_date meeting_time : string)
    (new_date new_time : option string) (new_duration : option Z)
  : M (option Body) :=
  retry_with_backoff
    (reschedule_booking_body user_email meeting_date meeting_time
       new_date new_time new_duration).

(** ** Tool wrappers of the agent *)

Definition json_get (key : string) (j : Json) : option Json :=
  match j with
  | JObj fields => snd <$> List.find (fun kv => String.eqb (fst kv) key) fields
  | _ => None
  end.

(** [except Exception as e: raise ToolException(prefix + str(e))]. *)
Definition wrap_exception {A} (prefix : string) (m : M A) : M A :=
  try_except m
    (fun e => Some (raise (ToolException (prefix +:+ exn_str e)))).


Definition CalComGetUserBookingsTool_run (email : string) : M Text :=
  wrap_exception "An error occurred while fetching user bookings: " (
    result <- get_user_bookings email ;;
    let bookings :=
      match json_get "user_bookings" result with
      | Some (JList l) => l
      | _ => []
      end in
    match bookings with
    | _ :: _ =>
        ret [Lit ("Found " +:+ str_of_Z (Z.of_nat (length bookings))
                  +:+ " bookings for " +:+ email +:+ ". Booking details: ");
             Dump result]
    | [] => ret [Lit ("No bookings found for " +:+ email +:+ ".")]
    end).


Definition CalComRescheduleBookingTool_run (email current_date current_time : string)
    (new_date new_time : option string) (new_duration : option Z) : M Text :=
  wrap_exception "An error occurred while rescheduling the booking: " (
    result <- reschedule_booking email current_date current_time
                new_date new_time new_duration ;;
    ret [Lit "Booking rescheduled successfully. Updated booking details: ";
         ReprBody result]).

End Run.

(** ** Vocabulary of the statements *)

Definition is_request (m : Method) (e : Event) : Prop :=
  match e with
  | EvRequest r => method r = m
  | EvSleep _ => False
  end.

(** An event that does not change the service: a GET or a sleep. *)
Definition read_only (e : Event) : Prop :=
  match e with
  | EvRequest r => method r = GET
  | EvSleep _ => True
  end.

(** A sent request is [req]; sleeps are not constrained. *)
Definition request_is (req : Request) (e : Event) : Prop :=
  match e with
  | EvRequest r => r = req
  | EvSleep _ => True
  end.

Definition requests_of (t : list Event) : list Request :=
  omap (fun e => match e with EvRequest r => Some r | EvSleep _ => None end) t.

Definition sleeps_of (t : list Event) : list Q :=
  omap (fun e => match e with EvSleep d => Some d | EvRequest _ => None end) t.

(** [m] run after [t] appends only events satisfying [E]; it returns a
    value satisfying [V] or raises an exception satisfying [X]. *)
Definition spec {A} (m : M A) (E : Event -> Prop) (V : A -> Prop)
    (X : Exn -> Prop) : Prop :=
  forall t, exists s,
    snd (m t) = t ++ s /\ Forall E s /\
    match fst (m t) with
    | Ret a => V a
    | Raise e => X e
    end.

(** Every booking of the list is a non-cancelled booking of the user. *)
Definition user_bookings_only (user_email : string) (l : list Booking) : Prop :=
  Forall (fun b => is_user_booking user_email b = true) l.

(** [m] run after [t] returns a value: it does not raise. *)
Definition returns {A} (m : M A) (t : list Event) : Prop :=
  exists a t', m t = (Ret a, t').



Definition rate_limited (rp : Reply) : Prop :=
  match rp with
  | Responded r => status_code r = 429
  | Failed _ => False
  end.

(** The trace after [n] rate-limited attempts at [req], the first of them
    issued after [t] with [retry_delay] to wait. *)
Fixpoint backoff_trace (env : Env) (req : Request) (n : nat) (retry_delay : Z)
    (t : list Event) : list Event :=
  match n with
  | O => t
  | S n' =>
      let t1 := t ++ [EvRequest req] in
      backoff_trace env req n' (retry_delay * 2)
        (t1 ++ [EvSleep (inject_Z retry_delay + uniform01 env t1)%Q])
  end.

(** The wait before attempt [k + 2]. *)
Definition backoff_delay (env : Env) (req : Request) (t : list Event) (k : nat) : Q :=
  (inject_Z (1 * 2 ^ Z.of_nat k)
   + uniform01 env (backoff_trace env req k 1 t ++ [EvRequest req]))%Q.

(** The attendee-localized minute the lookup should compare (the zone of
    the attendee with the given email). *)
Definition localized_minute (user_email : string) (b : Booking) : option string :=
  (fun a => strftime_minute (astimezone (timeZone a) (fromisoformat (startTime b))))
    <$> attendee_of user_email b.

(** ** Sample data *)

(** A zone of the time-zone database over a period in which its offset
    does not change. *)
Definition fixed_zone (name abbr : string) (hours : Z) : TimeZone :=
  let f := {| utcoffset := hours * usec_per_hour; tzabbr := abbr |} in
  {| zone := name; transitions := true;
     at_utc := fun _ => f; at_wall := fun _ => f |}.

Definition singapore : TimeZone := fixed_zone "Asia/Singapore" "+08" 8.
Definition tokyo : TimeZone := fixed_zone "Asia/Tokyo" "JST" 9.

Definition english_month (m : Z) : string :=
  nth (Z.to_nat (m - 1))
    ["January"; "February"; "March"; "April"; "May"; "June"; "July";
     "August"; "September"; "October"; "November"; "December"] EmptyString.

Definition no_body : Body :=
  {| booking_references := None; booking := None; message := None;
     metadata_videoCallUrl := None |}.

Definition message_body (msg : string) : Body :=
  {| booking_references := None; booking := None; message := Some msg;
     metadata_videoCallUrl := None |}.

Definition references_body (refs : list Reference) : Body :=
  {| booking_references := Some refs; booking := None; message := None;
     metadata_videoCallUrl := None |}.

Definition booking_body (b : Booking) : Body :=
  {| booking_references := None; booking := Some b; message := None;
     metadata_videoCallUrl := None |}.

Definition ok (b : Body) : Reply :=
  Responded {| status_code := 200; reason_phrase := "OK"; body := b |}.

Definition too_many_requests : Response :=
  {| status_code := 429; reason_phrase := "Too Many Requests";
     body := message_body "Rate limit exceeded" |}.

Definition server_error : Response :=
  {| status_code := 500; reason_phrase := "Internal Server Error";
     body := message_body "Something went wrong" |}.

Definition not_found : Response :=
  {| status_code := 404; reason_phrase := "Not Found";
     body := message_body "Not found" |}.

(** A service that answers by method and URL, whatever happened before. *)
Definition routes (table : list (Method * string * Reply)) (otherwise : Reply)
  : list Event -> Request -> Reply :=
  fun _ req =>
    match List.find (fun '(m, u, _) =>
                       method_eqb m (method req) && String.eqb u (url req))
                    table with
    | Some (_, _, rp) => rp
    | None => otherwise
    end.

(** A service that answers its k-th request with the k-th reply. *)
Definition scripted (replies : list Reply) (otherwise : Reply)
  : list Event -> Request -> Reply :=
  fun t _ => nth (length (requests_of t)) replies otherwise.

(** 2030-01-01T00:00:00Z. *)
Definition new_year_2030 : Z := wall_of_civil 2030 1 1 0 0.

Definition sample_env (server : list Event -> Request -> Reply) : Env :=
  {| respond := server;
     now_utc := fun _ => new_year_2030;
     uniform01 := fun _ => (1 # 2)%Q;
     local_zone := singapore;
     system_locale := LocaleName "en_US";
     month_name := english_month;
     am_pm := fun morning => if morning then "AM" else "PM";
     CAL_API_KEY := "cal_test_key" |}.

Definition alice : Attendee :=
  {| email := "alice@example.com"; timeZone := singapore; locale := "en" |}.

Definition host : Attendee :=
  {| email := "host@example.com"; timeZone := tokyo; locale := "ja" |}.

(** A one-hour booking of alice alone, 2030-10-11 09:00 in Singapore. *)
Definition booking_101 : Booking :=
  {| id := 101; status := Some "ACCEPTED"; attendees := [alice];
     startTime := wall_of_civil 2030 10 11 1 0;
     endTime := wall_of_civil 2030 10 11 2 0;
     description := Some "Project sync"; videoCallUrl := None |}.

(** The same slot with the host recorded first. *)
Definition booking_102 : Booking :=
  {| id := 102; status := Some "ACCEPTED"; attendees := [host; alice];
     startTime := wall_of_civil 2030 10 11 1 0;
     endTime := wall_of_civil 2030 10 11 2 0;
     description := Some "Project sync"; videoCallUrl := None |}.

Definition reference_7 : Reference :=
  {| ref_id := 7; bookingId := 101; deleted := None |}.

Definition reference_8 : Reference :=
  {| ref_id := 8; bookingId := 102; deleted := None |}.

(** Four rate-limited answers, then the list of references. *)
Definition busy_then_ok : Env :=
  sample_env
    (scripted
       [Responded too_many_requests; Responded too_many_requests;
        Responded too_many_requests; Responded too_many_requests;
        ok (references_body [reference_7])]
       (Responded not_found)).

(** A service without any reference record. *)
Definition no_bookings : Env :=
  sample_env
    (routes [(GET, booking_references_url, ok (references_body []))]
       (Responded not_found)).

(** A service that cannot be reached. *)
Definition unreachable : Env :=
  sample_env (routes [] (Failed "Connection refused")).


(** A service holding booking 101 and its reference; it accepts every
    other request. *)
Definition one_booking : Env :=
  sample_env
    (routes
       [(GET, booking_references_url, ok (references_body [reference_7]));
        (GET, booking_url 101, ok (booking_body booking_101))]
       (ok no_body)).


(** Booking 102, where alice is the second attendee, and its reference. *)
Definition shared_slot : Env :=
  sample_env
    (routes
       [(GET, booking_references_url, ok (references_body [reference_8]));
        (GET, booking_url 102, ok (booking_body booking_102))]
       (ok no_body)).

(** A service that answers every request with 429. *)
Definition rate_limiting : Env :=
  sample_env (routes [] (Responded too_many_requests)).

(** Booking 101 and its reference; the booking can be cancelled, the
    deletion of the reference fails with 500. *)
Definition reference_delete_fails : Env :=
  sample_env
    (routes
       [(GET, booking_references_url, ok (references_body [reference_7]));
        (GET, booking_url 101, ok (booking_body booking_101));
        (DELETE, "https://api.cal.com/v1/bookings/101/cancel",
         ok (message_body "Booking cancelled"));
        (DELETE, "https://api.cal.com/v1/booking-references/7",
         Responded server_error)]
       (Responded not_found)).

(** The sum of a list of waits. *)
Definition total (l : list Q) : Q := fold_right Qplus 0%Q l.

(** A request for the detail of a booking that a reference of the list,
    not marked deleted, points to; sleeps are not constrained. *)
Definition fetches_referenced (env : Env) (refs : list Reference) (e : Event)
  : Prop :=
  match e with
  | EvRequest q =>
      exists ref, In ref refs /\ deleted ref = None /\
                  q = get_request env (booking_url (bookingId ref))
  | EvSleep _ => True
  end.

(** The start of the booking, on the clock of its first attendee, reads
    [target] to the minute. *)
Definition first_zone_minute_is (target : string) (b : Booking) : Prop :=
  exists a rest,
    attendees b = a :: rest /\
    strftime_minute (astimezone (timeZone a) (fromisoformat (startTime b)))
      = target.

(** [o] is the first element of [l] that satisfies [P], if there is one. *)
Definition first_such {A} (P : A -> Prop) (l : list A) (o : option A) : Prop :=
  match o with
  | Some x =>
      exists l1 l2, l = l1 ++ x :: l2 /\ P x /\ forall y, In y l1 -> ~ P y
  | None => forall y, In y l -> ~ P y
  end.

(** The query string of the cancel call. *)
Definition cancel_params (env : Env) (cancellation_reason : option string)
  : list (string * string) :=
  api_key_params env ++
  match cancellation_reason with
  | Some r => if nonempty r then [("cancellationReason", r)] else []
  | None => []
  end.

(** The references cancel works with once the booking [b] is found after
    [t1]: those of the list delivered to the GET it sends after its cancel
    call was accepted; none when that point is not reached. *)
Definition cancel_references (env : Env) (b : Booking)
    (cancellation_reason : option string) (t1 : list Event) : list Reference :=
  match make_api_request env
          (delete_request (cancel_url (id b))
             (cancel_params env cancellation_reason)) t1 with
  | (Ret (Some cr), t2) =>
      if status_code cr =? 200 then
        match make_api_request env (get_request env booking_references_url) t2 with
        | (Ret (Some rr), _) => default [] (booking_references (body rr))
        | _ => []
        end
      else []
  | _ => []
  end.

(** What cancel may send once the booking [b] is found: the cancel call
    for [b], the GET of the references, and the deletion of a reference of
    the list [refs] that points to [b]; sleeps are not constrained. *)
Definition cancels_only (env : Env) (b : Booking)
    (cancellation_reason : option string) (refs : list Reference) (e : Event)
  : Prop :=
  match e with
  | EvRequest q =>
      q = delete_request (cancel_url (id b))
            (cancel_params env cancellation_reason) \/
      q = get_request env booking_references_url \/
      exists ref, In ref refs /\ bookingId ref = id b /\
        q = delete_request (reference_url (ref_id ref)) (api_key_params env)
  | EvSleep _ => True
  end.

(** A status for which [raise_for_status] raises nothing. *)
Definition no_error_status (r : Response) : Prop :=
  status_code r < 400 \/ 600 <= status_code r.

(** Booking 101 and its reference, with every update answered 429. *)
Definition update_rate_limited : Env :=
  sample_env
    (routes
       [(GET, booking_references_url, ok (references_body [reference_7]));
        (GET, booking_url 101, ok (booking_body booking_101));
        (PATCH, booking_url 101, Responded too_many_requests)]
       (ok no_body)).

(** Booking 101 and its reference, with no update delivered. *)
Definition update_undelivered : Env :=
  sample_env
    (routes
       [(GET, booking_references_url, ok (references_body [reference_7]));
        (GET, booking_url 101, ok (booking_body booking_101));
        (PATCH, booking_url 101, Failed "Connection reset by peer")]
       (ok no_body)).

(** What the sweep may send after the list of references: the GET of the
    booking of a listed reference and the deletion of a listed reference;
    sleeps are not constrained. *)
Definition sweeps_only (env : Env) (refs : list Reference) (e : Event) : Prop :=
  match e with
  | EvRequest q =>
      exists ref, In ref refs /\
        (q = get_request env (booking_url (bookingId ref)) \/
         q = delete_request (reference_url (ref_id ref)) (api_key_params env))
  | EvSleep _ => True
  end.

(** Bookings 101 (accepted) and 103 (cancelled) with a reference each. *)
Definition booking_103 : Booking :=
  {| id := 103; status := Some "CANCELLED"; attendees := [alice];
     startTime := wall_of_civil 2030 10 12 1 0;
     endTime := wall_of_civil 2030 10 12 2 0;
     description := None; videoCallUrl := None |}.

Definition reference_9 : Reference :=
  {| ref_id := 9; bookingId := 103; deleted := None |}.

Definition with_cancelled : Env :=
  sample_env
    (routes
       [(GET, booking_references_url,
         ok (references_body [reference_7; reference_9]));
        (GET, booking_url 101, ok (booking_body booking_101));
        (GET, booking_url 103, ok (booking_body booking_103))]
       (ok no_body)).

(** Proof step: entering create when the locale has a name. *)
Ltac enter_create Hloc :=
  unfold create_booking, get_system_info; rewrite Hloc;
  unfold bind at 1, ret at 1; cbv beta iota zeta.

(** * Properties *)

(** ** Duration normalizer *)

Lemma min_by_snoc (key : Z -> Z) (x : Z) (xs : list Z) (y : Z) :
  min_by key x (xs ++ [y]) =
  if key y <? key (min_by key x xs) then y else min_by key x xs.
Proof. unfold min_by. now rewrite fold_left_app. Qed.

(** [min_by] splits the list at its result: keys strictly larger before
    it, at least as large after it. *)
Lemma min_by_split (key : Z -> Z) (x : Z) (xs : list Z) :
  exists l1 l2,
    x :: xs = l1 ++ min_by key x xs :: l2 /\
    Forall (fun y => key (min_by key x xs) < key y) l1 /\
    Forall (fun y => key (min_by key x xs) <= key y) l2.
Proof.
  induction xs as [|y xs IH] using rev_ind.
  - exists [], []. repeat split; constructor.
  - destruct IH as (l1 & l2 & Heq & H1 & H2).
    rewrite min_by_snoc.
    destruct (Z.ltb_spec (key y) (key (min_by key x xs))) as [Hlt|Hge].
    + exists (l1 ++ min_by key x xs :: l2), []. repeat split.
      * rewrite app_comm_cons, Heq. now rewrite <- app_assoc.
      * apply Forall_app. split; [|constructor; [lia|]].
        -- eapply Forall_impl; [exact H1|]. simpl. intros; lia.
        -- eapply Forall_impl; [exact H2|]. simpl. intros; lia.
      * constructor.
    + exists l1, (l2 ++ [y]). repeat split.
      * rewrite app_comm_cons, Heq. now rewrite <- app_assoc.
      * exact H1.
      * apply Forall_app. split; [exact H2|]. constructor; [lia|constructor].
Qed.

Lemma valid_durations_sorted : StronglySorted Z.lt valid_durations.
Proof. unfold valid_durations. repeat (constructor; [|repeat constructor; lia]). constructor. Qed.

Lemma find_closest_duration_in (d : Z) :
  In (find_closest_duration d) valid_durations.
Proof.
  unfold find_closest_duration.
  destruct valid_durations as [|x xs] eqn:Hv; [discriminate|].
  destruct (min_by_split (fun x0 => Z.abs (x0 - d)) x xs)
    as (l1 & l2 & Heq & _).
  rewrite Heq. apply in_or_app. right. now left.
Qed.

(** C8: for every integer duration (so for every positive one) the
    normalizer returns a member of the fixed set, no member of the set is
    strictly closer to the duration, and a member at the same distance is
    never smaller than the result: the function is total and on a tie
    returns the smaller value. *)
Theorem find_closest_duration_nearest (d : Z) :
  In (find_closest_duration d) valid_durations /\
  (forall m, In m valid_durations ->
     Z.abs (find_closest_duration d - d) <= Z.abs (m - d)) /\
  (forall m, In m valid_durations ->
     Z.abs (m - d) = Z.abs (find_closest_duration d - d) ->
     find_closest_duration d <= m).
Proof.
  pose proof valid_durations_sorted as Hs.
  unfold find_closest_duration.
  destruct valid_durations as [|x xs] eqn:Hv; [discriminate|].
  set (key := fun x0 => Z.abs (x0 - d)).
  destruct (min_by_split key x xs) as (l1 & l2 & Heq & H1 & H2).
  set (r := min_by key x xs) in *.
  rewrite Heq in *. clear Heq Hv.
  rewrite List.Forall_forall in H1, H2.
  assert (Hin : forall m, In m (l1 ++ r :: l2) -> In m l1 \/ m = r \/ In m l2).
  { intros m Hm. apply in_app_or in Hm. simpl in Hm. intuition. }
  split; [apply in_or_app; right; now left|]. split.
  - intros m Hm. fold (key r) (key m).
    destruct (Hin m Hm) as [Hm1|[->|Hm2]]; [apply H1 in Hm1; lia|lia|now apply H2].
  - intros m Hm Htie. fold (key r) (key m) in Htie.
    destruct (Hin m Hm) as [Hm1|[->|Hm2]]; [apply H1 in Hm1; lia|lia|].
    apply StronglySorted_app_1_r in Hs.
    apply StronglySorted_inv in Hs. destruct Hs as [_ Hall].
    rewrite List.Forall_forall in Hall. apply Hall in Hm2. lia.
Qed.

(** ** Rules for computations *)

Lemma spec_ret {A} (a : A) (E : Event -> Prop) (V : A -> Prop) (X : Exn -> Prop) :
  V a -> spec (ret a) E V X.
Proof. intros Ha t. exists []. simpl. rewrite app_nil_r. auto. Qed.

Lemma spec_raise {A} (e : Exn) (E : Event -> Prop) (V : A -> Prop)
    (X : Exn -> Prop) :
  X e -> spec (@raise A e) E V X.
Proof. intros He t. exists []. simpl. rewrite app_nil_r. auto. Qed.

Lemma spec_bind {A B} (m : M A) (k : A -> M B) (E : Event -> Prop)
    (V : A -> Prop) (W : B -> Prop) (X : Exn -> Prop) :
  spec m E V X -> (forall a, V a -> spec (k a) E W X) ->
  spec (bind m k) E W X.
Proof.
  intros Hm Hk t. unfold bind.
  destruct (Hm t) as (s1 & Ht1 & HE1 & Ho).
  destruct (m t) as [[a|e] t1]; simpl in *; subst t1.
  - destruct (Hk a Ho (t ++ s1)) as (s2 & Ht2 & HE2 & Ho2).
    exists (s1 ++ s2). rewrite Ht2, app_assoc.
    split; [reflexivity|]. split; [apply Forall_app; auto|exact Ho2].
  - exists s1. auto.
Qed.

Lemma spec_try_except {A} (m : M A) (h : Exn -> option (M A))
    (E : Event -> Prop) (V : A -> Prop) (X Y : Exn -> Prop) :
  spec m E V X ->
  (forall e, X e ->
     match h e with
     | Some k => spec k E V Y
     | None => Y e
     end) ->
  spec (try_except m h) E V Y.
Proof.
  intros Hm Hh t. unfold try_except.
  destruct (Hm t) as (s1 & Ht1 & HE1 & Ho).
  destruct (m t) as [[a|e] t1]; simpl in *; subst t1.
  - exists s1. auto.
  - specialize (Hh e Ho). destruct (h e) as [k|].
    + destruct (Hh (t ++ s1)) as (s2 & Ht2 & HE2 & Ho2).
      exists (s1 ++ s2). rewrite Ht2, app_assoc.
      split; [reflexivity|]. split; [apply Forall_app; auto|exact Ho2].
    + exists s1. auto.
Qed.

Lemma spec_weaken {A} (m : M A) (E E' : Event -> Prop) (V V' : A -> Prop)
    (X X' : Exn -> Prop) :
  spec m E V X ->
  (forall e, E e -> E' e) -> (forall a, V a -> V' a) -> (forall e, X e -> X' e) ->
  spec m E' V' X'.
Proof.
  intros Hm HE HV HX t. destruct (Hm t) as (s & Ht & HEs & Ho).
  exists s. split; [exact Ht|]. split.
  - eapply Forall_impl; [exact HEs|exact HE].
  - destruct (fst (m t)); auto.
Qed.

(** What a specification says of one run. *)
Lemma spec_run {A} (m : M A) (E : Event -> Prop) (V : A -> Prop)
    (X : Exn -> Prop) (t t' : list Event) (o : Outcome A) :
  spec m E V X -> m t = (o, t') ->
  (exists s, t' = t ++ s /\ Forall E s) /\
  match o with Ret a => V a | Raise e => X e end.
Proof.
  intros Hm Hrun. destruct (Hm t) as (s & Ht & HE & Ho).
  rewrite Hrun in *. simpl in *. eauto.
Qed.

Lemma spec_deref {A} (what : string) (o : option A) (E : Event -> Prop)
    (V : A -> Prop) (X : Exn -> Prop) :
  (exists a, o = Some a /\ V a) -> spec (deref what o) E V X.
Proof. intros (a & -> & Ha). now apply spec_ret. Qed.

Section Transport.

Variable env : Env.

Lemma spec_requests_request (req : Request) (E : Event -> Prop) :
  E (EvRequest req) ->
  spec (requests_request env req) E (fun _ => True)
       (fun e => exists msg, e = TransportError msg).
Proof.
  intros HE t. unfold requests_request. exists [EvRequest req].
  destruct (respond env t req); simpl; repeat split; eauto.
Qed.

Lemma spec_time_sleep (d : Q) (E : Event -> Prop) :
  E (EvSleep d) -> spec (time_sleep d) E (fun _ => True) (fun _ => False).
Proof. intros HE t. exists [EvSleep d]. simpl. auto. Qed.


Lemma spec_raise_for_status (u : string) (r : Response) (E : Event -> Prop) :
  spec (raise_for_status u r) E (fun _ => True)
       (fun e => exists msg, e = HTTPError msg r).
Proof.
  unfold raise_for_status.
  repeat case_match; (apply spec_raise; eauto) || now apply spec_ret.
Qed.

(** The wrapper returns what the wrapped call returns, raises only what
    the wrapped call raises, and adds nothing but sleeps. *)
Lemma spec_retry_loop {A} (func : M A) (E : Event -> Prop) (V : A -> Prop)
    (X : Exn -> Prop) (remaining : nat) (attempt retry_delay : Z) :
  spec func E V X -> (forall d, E (EvSleep d)) ->
  Z.of_nat remaining = max_retries - attempt -> (0 < remaining)%nat ->
  spec (retry_loop env func remaining attempt retry_delay) E
       (fun o => exists a, o = Some a /\ V a) X.
Proof.
  intros Hf Hs. revert attempt retry_delay.
  induction remaining as [|n IH]; intros attempt d Hrem Hpos; [lia|].
  simpl. eapply spec_try_except.
  - eapply spec_bind; [exact Hf|]. intros a Ha. apply spec_ret. eauto.
  - intros e He. destruct e; try exact He.
    destruct (status_code response =? 429); [|exact He].
    destruct (Z.eqb_spec attempt (max_retries - 1)) as [|Hne]; [exact He|].
    eapply spec_bind with (V := fun _ => True).
    { intros t. exists []. simpl. rewrite app_nil_r. auto. }
    intros j _. eapply spec_bind with (V := fun _ => True).
    { eapply spec_weaken; [apply spec_time_sleep, Hs|auto|auto|intros ? []]. }
    intros _ _. apply IH; unfold max_retries in *; lia.
Qed.

Lemma spec_retry_with_backoff {A} (func : M A) (E : Event -> Prop)
    (V : A -> Prop) (X : Exn -> Prop) :
  spec func E V X -> (forall d, E (EvSleep d)) ->
  spec (retry_with_backoff env func) E (fun o => exists a, o = Some a /\ V a) X.
Proof.
  intros Hf Hs. apply spec_retry_loop; auto; unfold max_retries; simpl; lia.
Qed.

Lemma spec_send (req : Request) :
  spec (make_api_request_body env req) (request_is req) (fun _ => True)
       (fun e => is_RequestException e = true).
Proof.
  unfold make_api_request_body.
  eapply spec_bind with (V := fun _ => True).
  - apply spec_weaken with (E := request_is req) (V := fun _ => True)
      (X := fun e => exists msg, e = TransportError msg); auto.
    + now apply spec_requests_request.
    + intros e [msg ->]. reflexivity.
  - intros r _. eapply spec_bind with (V := fun _ => True).
    + apply spec_weaken with (E := request_is req) (V := fun _ => True)
        (X := fun e => exists msg, e = HTTPError msg r); auto.
      * apply spec_raise_for_status.
      * intros e [msg ->]. reflexivity.
    + intros _ _. now apply spec_ret.
Qed.

(** The retrying transport sends only [req], returns a response, and
    raises nothing but request exceptions. *)
Lemma spec_make_api_request (req : Request) :
  spec (make_api_request env req) (request_is req)
       (fun o => exists r, o = Some r)
       (fun e => is_RequestException e = true).
Proof.
  unfold make_api_request.
  apply spec_weaken with (E := request_is req)
    (V := fun o => exists r : Response, o = Some r /\ True)
    (X := fun e => is_RequestException e = true); auto.
  - apply spec_retry_with_backoff; [apply spec_send|simpl; auto].
  - intros o (r & -> & _). eauto.
Qed.

End Transport.

(** ** Retrying transport: the schedule of attempts *)

Section Backoff.

Variable env : Env.
Variable req : Request.


Lemma send_rate_limited (t : list Event) :
  rate_limited (respond env t req) ->
  exists msg r, make_api_request_body env req t = (Raise (HTTPError msg r), t ++ [EvRequest req]) /\
                status_code r = 429.
Proof.
  unfold rate_limited, make_api_request_body, bind, requests_request,
    raise_for_status.
  destruct (respond env t req) as [r|msg]; [|tauto]. intros H429.
  rewrite H429. simpl. eauto.
Qed.

Lemma send_success (t : list Event) (r : Response) :
  respond env t req = Responded r ->
  status_code r < 400 \/ 600 <= status_code r ->
  make_api_request_body env req t = (Ret r, t ++ [EvRequest req]).
Proof.
  intros Hr Hok.
  unfold make_api_request_body, bind, requests_request, raise_for_status.
  rewrite Hr.
  replace ((400 <=? status_code r) && (status_code r <? 500)) with false by lia.
  replace ((500 <=? status_code r) && (status_code r <? 600)) with false by lia.
  reflexivity.
Qed.

Lemma send_error (t : list Event) (r : Response) :
  respond env t req = Responded r ->
  400 <= status_code r < 600 ->
  exists msg, make_api_request_body env req t = (Raise (HTTPError msg r), t ++ [EvRequest req]).
Proof.
  intros Hr Herr.
  unfold make_api_request_body, bind, requests_request, raise_for_status.
  rewrite Hr.
  destruct ((400 <=? status_code r) && (status_code r <? 500)) eqn:H4; [eauto|].
  replace ((500 <=? status_code r) && (status_code r <? 600)) with true by lia.
  eauto.
Qed.

Lemma send_failed (t : list Event) (msg : string) :
  respond env t req = Failed msg ->
  make_api_request_body env req t = (Raise (TransportError msg), t ++ [EvRequest req]).
Proof.
  intros Hr. unfold make_api_request_body, bind, requests_request.
  now rewrite Hr.
Qed.

(** One iteration of the loop, by the result of the wrapped call. *)
Lemma retry_loop_ret {A} (func : M A) (n : nat) (attempt d : Z)
    (t t1 : list Event) (a : A) :
  func t = (Ret a, t1) ->
  retry_loop env func (S n) attempt d t = (Ret (Some a), t1).
Proof. intros H. simpl. unfold try_except, bind. now rewrite H. Qed.

Lemma retry_loop_retry {A} (func : M A) (n : nat) (attempt d : Z)
    (t t1 : list Event) (msg : string) (r : Response) :
  func t = (Raise (HTTPError msg r), t1) -> status_code r = 429 ->
  attempt <> max_retries - 1 ->
  retry_loop env func (S n) attempt d t =
  retry_loop env func n (attempt + 1) (d * 2)
    (t1 ++ [EvSleep (inject_Z d + uniform01 env t1)%Q]).
Proof.
  intros H H429 Hne. simpl. unfold try_except at 1. unfold bind at 1.
  rewrite H. rewrite H429. simpl.
  destruct (Z.eqb_spec attempt (max_retries - 1)); [contradiction|].
  reflexivity.
Qed.

Lemma retry_loop_last {A} (func : M A) (n : nat) (d : Z)
    (t t1 : list Event) (msg : string) (r : Response) :
  func t = (Raise (HTTPError msg r), t1) -> status_code r = 429 ->
  retry_loop env func (S n) (max_retries - 1) d t = (Raise (HTTPError msg r), t1).
Proof.
  intros H H429. simpl. unfold try_except, bind. rewrite H, H429. reflexivity.
Qed.

Lemma retry_loop_http_error {A} (func : M A) (n : nat) (attempt d : Z)
    (t t1 : list Event) (msg : string) (r : Response) :
  func t = (Raise (HTTPError msg r), t1) -> status_code r <> 429 ->
  retry_loop env func (S n) attempt d t = (Raise (HTTPError msg r), t1).
Proof.
  intros H Hne. simpl. unfold try_except, bind. rewrite H.
  destruct (Z.eqb_spec (status_code r) 429); [contradiction|reflexivity].
Qed.

Lemma retry_loop_other {A} (func : M A) (n : nat) (attempt d : Z)
    (t t1 : list Event) (e : Exn) :
  func t = (Raise e, t1) -> (forall msg r, e <> HTTPError msg r) ->
  retry_loop env func (S n) attempt d t = (Raise e, t1).
Proof.
  intros H Hne. simpl. unfold try_except, bind. rewrite H.
  destruct e; try reflexivity. now destruct (Hne msg response).
Qed.

(** After [n] rate-limited attempts the loop is [n] iterations further, on
    the trace [backoff_trace] describes. *)
Lemma retry_loop_skip (n : nat) :
  forall (remaining : nat) (attempt d : Z) (t : list Event),
    Z.of_nat remaining = max_retries - attempt ->
    (n < remaining)%nat ->
    (forall i, (i < n)%nat ->
       rate_limited (respond env (backoff_trace env req i d t) req)) ->
    retry_loop env (make_api_request_body env req) remaining attempt d t =
    retry_loop env (make_api_request_body env req) (remaining - n) (attempt + Z.of_nat n)
      (d * 2 ^ Z.of_nat n) (backoff_trace env req n d t).
Proof.
  induction n as [|n IH]; intros remaining attempt d t Hrem Hlt Hrl.
  - simpl. rewrite Nat.sub_0_r, Z.add_0_r, Z.mul_1_r. reflexivity.
  - destruct remaining as [|remaining]; [lia|].
    destruct (send_rate_limited t) as (msg & r & Hsend & H429).
    { apply (Hrl 0%nat). lia. }
    rewrite (retry_loop_retry (make_api_request_body env req) remaining
               attempt d t _ msg r Hsend H429) by lia.
    rewrite IH; [| lia | lia |].
    + simpl backoff_trace.
      replace (S remaining - S n)%nat with (remaining - n)%nat by lia.
      replace (attempt + 1 + Z.of_nat n) with (attempt + Z.of_nat (S n)) by lia.
      replace (d * 2 * 2 ^ Z.of_nat n) with (d * 2 ^ Z.of_nat (S n)).
      * reflexivity.
      * rewrite Nat2Z.inj_succ, Z.pow_succ_r by lia. ring.
    + intros i Hi. apply (Hrl (S i)). lia.
Qed.

Lemma backoff_trace_snoc (n : nat) :
  forall (d : Z) (t : list Event),
    backoff_trace env req (S n) d t =
    backoff_trace env req n d t ++
    [EvRequest req;
     EvSleep (inject_Z (d * 2 ^ Z.of_nat n)
              + uniform01 env (backoff_trace env req n d t ++ [EvRequest req]))%Q].
Proof.
  induction n as [|n IH]; intros d t.
  - simpl. rewrite Z.mul_1_r, <- app_assoc. reflexivity.
  - change (backoff_trace env req (S (S n)) d t)
      with (backoff_trace env req (S n) (d * 2)
              ((t ++ [EvRequest req]) ++
               [EvSleep (inject_Z d + uniform01 env (t ++ [EvRequest req]))%Q])).
    rewrite IH. simpl backoff_trace.
    replace (d * 2 * 2 ^ Z.of_nat n) with (d * 2 ^ Z.of_nat (S n)).
    + reflexivity.
    + rewrite Nat2Z.inj_succ, Z.pow_succ_r by lia. ring.
Qed.

Lemma requests_of_app (t s : list Event) :
  requests_of (t ++ s) = requests_of t ++ requests_of s.
Proof. unfold requests_of. apply omap_app. Qed.

Lemma sleeps_of_app (t s : list Event) :
  sleeps_of (t ++ s) = sleeps_of t ++ sleeps_of s.
Proof. unfold sleeps_of. apply omap_app. Qed.

Lemma requests_of_backoff_trace (n : nat) (t : list Event) :
  requests_of (backoff_trace env req n 1 t) = requests_of t ++ replicate n req.
Proof.
  induction n as [|n IH].
  - simpl. now rewrite app_nil_r.
  - rewrite backoff_trace_snoc, requests_of_app, IH. simpl.
    rewrite <- app_assoc. f_equal.
    change (req :: replicate n req) with (replicate (S n) req).
    now rewrite replicate_S_end.
Qed.

Lemma sleeps_of_backoff_trace (n : nat) (t : list Event) :
  sleeps_of (backoff_trace env req n 1 t) =
  sleeps_of t ++ (backoff_delay env req t <$> seq 0 n).
Proof.
  induction n as [|n IH].
  - simpl. now rewrite app_nil_r.
  - rewrite backoff_trace_snoc, sleeps_of_app, IH. simpl sleeps_of.
    rewrite seq_S, fmap_app, app_assoc. reflexivity.
Qed.

End Backoff.

Lemma backoff_delay_bounds (env : Env) (req : Request) (t : list Event) (k : nat) :
  (forall h, 0 <= uniform01 env h /\ uniform01 env h < 1)%Q ->
  (inject_Z (1 * 2 ^ Z.of_nat k) <= backoff_delay env req t k /\
   backoff_delay env req t k < inject_Z (1 * 2 ^ Z.of_nat k) + 1)%Q.
Proof.
  intros Hj. unfold backoff_delay.
  destruct (Hj (backoff_trace env req k 1 t ++ [EvRequest req])) as [H0 H1].
  split; lra.
Qed.

Lemma backoff_delay_mono (env : Env) (req : Request) (t : list Event) (k : nat) :
  (forall h, 0 <= uniform01 env h /\ uniform01 env h < 1)%Q ->
  (backoff_delay env req t k <= backoff_delay env req t (S k))%Q.
Proof.
  intros Hj.
  destruct (backoff_delay_bounds env req t k Hj) as [_ Hup].
  destruct (backoff_delay_bounds env req t (S k) Hj) as [Hlo _].
  assert (Hp : 0 < 2 ^ Z.of_nat k) by (apply Z.pow_pos_nonneg; lia).
  assert (Hz : (inject_Z (1 * 2 ^ Z.of_nat k) + 1
                <= inject_Z (1 * 2 ^ Z.of_nat (S k)))%Q).
  { change 1%Q with (inject_Z 1). rewrite <- inject_Z_plus, <- Zle_Qle.
    rewrite Nat2Z.inj_succ, Z.pow_succ_r by lia. lia. }
  lra.
Qed.

(** C4: on rate-limit answers the transport reissues the call, at most
    five attempts in all.  With [T n] the trace after [n] rate-limited
    attempts: when the attempt after them is answered otherwise, its
    response is returned, or its error raised, at once; after a fifth
    rate-limited answer the failure is raised and no sixth request is
    sent.  The wait before attempt [k + 2] is [1 * 2 ^ k] plus the random
    value drawn in [0, 1), so the waits never decrease. *)
Theorem retry_with_backoff_schedule (env : Env) (req : Request) (t : list Event) :
  (forall h, 0 <= uniform01 env h /\ uniform01 env h < 1)%Q ->
  let T := fun n => backoff_trace env req n 1 t in
  (forall n, (n < 5)%nat ->
     (forall i, (i < n)%nat -> rate_limited (respond env (T i) req)) ->
     (forall r, respond env (T n) req = Responded r ->
        status_code r < 400 \/ 600 <= status_code r ->
        make_api_request env req t = (Ret (Some r), T n ++ [EvRequest req])) /\
     (forall r, respond env (T n) req = Responded r ->
        400 <= status_code r < 600 -> status_code r <> 429 ->
        exists msg,
          make_api_request env req t =
          (Raise (HTTPError msg r), T n ++ [EvRequest req])) /\
     (forall msg, respond env (T n) req = Failed msg ->
        make_api_request env req t =
        (Raise (TransportError msg), T n ++ [EvRequest req]))) /\
  ((forall i, (i < 5)%nat -> rate_limited (respond env (T i) req)) ->
     exists msg r,
       status_code r = 429 /\
       make_api_request env req t =
       (Raise (HTTPError msg r), T 4%nat ++ [EvRequest req])) /\
  (forall n,
     requests_of (T n ++ [EvRequest req]) = requests_of t ++ replicate (S n) req /\
     sleeps_of (T n ++ [EvRequest req]) =
       sleeps_of t ++ (backoff_delay env req t <$> seq 0 n)) /\
  (forall k,
     (inject_Z (1 * 2 ^ Z.of_nat k) <= backoff_delay env req t k)%Q /\
     (backoff_delay env req t k < inject_Z (1 * 2 ^ Z.of_nat k) + 1)%Q /\
     (backoff_delay env req t k <= backoff_delay env req t (S k))%Q).
Proof.
  intros Hj T.
  assert (Hskip : forall n, (n < 5)%nat ->
            (forall i, (i < n)%nat -> rate_limited (respond env (T i) req)) ->
            make_api_request env req t =
            retry_loop env (make_api_request_body env req)
              (S (4 - n)) (Z.of_nat n) (1 * 2 ^ Z.of_nat n) (T n)).
  { intros n Hn Hrl. unfold make_api_request, retry_with_backoff.
    rewrite (retry_loop_skip env req n (Z.to_nat max_retries) 0 1 t).
    - replace (Z.to_nat max_retries - n)%nat with (S (4 - n))
        by (unfold max_retries; lia).
      reflexivity.
    - unfold max_retries. lia.
    - unfold max_retries. lia.
    - exact Hrl. }
  split; [|split; [|split]].
  - intros n Hn Hrl. rewrite (Hskip n Hn Hrl). split; [|split].
    + intros r Hr Hok. apply retry_loop_ret. now apply send_success.
    + intros r Hr Herr Hne.
      destruct (send_error env req (T n) r Hr Herr) as [msg Hsend].
      exists msg. now apply retry_loop_http_error.
    + intros msg Hr. apply retry_loop_other; [now apply send_failed|discriminate].
  - intros Hrl.
    rewrite (Hskip 4%nat) by (lia || (intros; apply Hrl; lia)).
    destruct (send_rate_limited env req (T 4%nat)) as (msg & r & Hsend & H429).
    { apply Hrl. lia. }
    exists msg, r. split; [exact H429|].
    change (Z.of_nat 4) with (max_retries - 1).
    now apply retry_loop_last.
  - intros n. rewrite requests_of_app, sleeps_of_app. unfold T.
    rewrite requests_of_backoff_trace, sleeps_of_backoff_trace. simpl.
    rewrite <- app_assoc, app_nil_r. split; [|reflexivity].
    f_equal. change (req :: replicate n req) with (replicate (S n) req).
    now rewrite replicate_S_end.
  - intros k. destruct (backoff_delay_bounds env req t k Hj) as [Hlo Hup].
    repeat split; auto. now apply backoff_delay_mono.
Qed.

Lemma retry_with_backoff_schedule_witness :
  make_api_request busy_then_ok (get_request busy_then_ok booking_references_url) [] =
  (Ret (Some {| status_code := 200; reason_phrase := "OK";
                body := references_body [reference_7] |}),
   backoff_trace busy_then_ok
     (get_request busy_then_ok booking_references_url) 4%nat 1 []
   ++ [EvRequest (get_request busy_then_ok booking_references_url)]).
Proof.
  destruct (retry_with_backoff_schedule busy_then_ok
              (get_request busy_then_ok booking_references_url) [])
    as (Hfirst & _).
  - intros h. simpl. split; [discriminate|reflexivity].
  - destruct (Hfirst 4%nat) as (Hok & _).
    + lia.
    + intros i Hi.
      destruct i as [|[|[|[|i]]]]; [reflexivity..|lia].
    + apply Hok; [reflexivity|simpl; lia].
Defined.

(** ** Enumeration and lookup *)

Section Lookup.

Variable env : Env.

Lemma request_is_get_read_only (u : string) (e : Event) :
  request_is (get_request env u) e -> read_only e.
Proof. destruct e as [r|d]; simpl; [intros ->; reflexivity|auto]. Qed.

(** A GET through the transport is read-only and yields a response. *)
Lemma spec_get (u : string) :
  spec (make_api_request env (get_request env u)) read_only
       (fun o => exists r, o = Some r) (fun e => is_RequestException e = true).
Proof.
  eapply spec_weaken; [apply spec_make_api_request| |intros a Ha; exact Ha|auto].
  apply request_is_get_read_only.
Qed.

Lemma is_user_booking_attendees (user_email : string) (b : Booking) :
  is_user_booking user_email b = true -> exists a rest, attendees b = a :: rest.
Proof.
  unfold is_user_booking. intros H. apply andb_true_iff in H as [_ H].
  destruct (attendees b) as [|a rest]; [discriminate|eauto].
Qed.

Lemma spec_fetch_user_bookings (user_email : string) (ids : list Z) :
  forall acc, user_bookings_only user_email acc ->
    spec (fetch_user_bookings env user_email ids acc) read_only
         (user_bookings_only user_email)
         (fun e => is_RequestException e = true).
Proof.
  induction ids as [|booking_id ids IH]; intros acc Hacc; simpl.
  - now apply spec_ret.
  - eapply spec_bind; [apply spec_get|]. intros o [r ->]. simpl.
    eapply spec_bind; [apply spec_ret with (V := fun _ => True); exact I|].
    intros r' _. destruct (booking (body r')) as [b|]; [|now apply IH].
    destruct (is_user_booking user_email b) eqn:Hb; [|now apply IH].
    apply IH. apply Forall_app. split; [exact Hacc|]. now constructor.
Qed.

(** The enumeration never raises: it returns bookings of the user, after
    GET requests only. *)
Lemma spec_get_user_bookings_detailed (user_email : string) :
  spec (_get_user_bookings_detailed env user_email) read_only
       (user_bookings_only user_email) (fun _ => False).
Proof.
  unfold _get_user_bookings_detailed.
  eapply spec_try_except with (X := fun e => is_RequestException e = true).
  - eapply spec_bind; [apply spec_get|]. intros o [r ->]. simpl.
    eapply spec_bind; [apply spec_ret with (V := fun _ => True); exact I|].
    intros r' _. apply spec_fetch_user_bookings. constructor.
  - intros e He. rewrite He. apply spec_ret. constructor.
Qed.

Lemma spec_find_matching (user_email target : string) (l : list Booking) :
  user_bookings_only user_email l ->
  spec (find_matching target l) (fun _ => False)
       (fun o => forall b, o = Some b -> is_user_booking user_email b = true)
       (fun _ => False).
Proof.
  induction l as [|b l IH]; intros Hl; simpl.
  - apply spec_ret. discriminate.
  - inversion Hl as [|? ? Hb Hl']; subst.
    destruct (is_user_booking_attendees _ _ Hb) as (a & rest & Ha).
    unfold first_attendee. rewrite Ha.
    eapply spec_bind; [apply spec_ret with (V := fun _ => True); exact I|].
    intros a' _.
    destruct (String.eqb _ target).
    + apply spec_ret. now intros ? [= <-].
    + now apply IH.
Qed.

(** The lookup never raises, sends GET requests only, and a booking it
    finds has the user among its attendees. *)
Lemma spec_find_booking (user_email meeting_date meeting_time : string) :
  spec (_find_booking env user_email meeting_date meeting_time) read_only
       (fun o => forall b, o = Some b -> is_user_booking user_email b = true)
       (fun _ => False).
Proof.
  unfold _find_booking.
  eapply spec_bind; [apply spec_get_user_bookings_detailed|].
  intros l Hl.
  eapply spec_weaken; [exact (spec_find_matching user_email _ l Hl)| |auto|auto].
  intros e [].
Qed.

End Lookup.

(** ** Cancellation when nothing matches *)

Lemma read_only_not_delete (e : Event) : read_only e -> ~ is_request DELETE e.
Proof. destruct e as [r|d]; simpl; [congruence|tauto]. Qed.

(** When the lookup returns no booking, cancel returns the not-found
    message (it raises nothing) and everything it sent is what the lookup
    sent: no DELETE request, neither to cancel a booking nor to delete a
    reference. *)
Theorem cancel_not_found_sends_no_delete (env : Env)
    (user_email meeting_date meeting_time : string)
    (cancellation_reason : option string) (t t' : list Event) :
  _find_booking env user_email meeting_date meeting_time t = (Ret None, t') ->
  cancel_user_booking env user_email meeting_date meeting_time
    cancellation_reason t =
  (Ret ("Error: No booking found for " +:+ user_email +:+ " on "
        +:+ meeting_date +:+ " at " +:+ meeting_time), t') /\
  exists s, t' = t ++ s /\ Forall (fun e => ~ is_request DELETE e) s.
Proof.
  intros Hfind. split.
  - unfold cancel_user_booking, bind. rewrite Hfind. reflexivity.
  - destruct (spec_run _ _ _ _ _ _ _
                (spec_find_booking env user_email meeting_date meeting_time)
                Hfind) as [(s & Hs & HE) _].
    exists s. split; [exact Hs|].
    eapply Forall_impl; [exact HE|]. apply read_only_not_delete.
Qed.

Lemma cancel_not_found_sends_no_delete_witness :
  cancel_user_booking no_bookings "alice@example.com" "2030-10-11" "09:00"
    None [] =
  (Ret "Error: No booking found for alice@example.com on 2030-10-11 at 09:00",
   [EvRequest (get_request no_bookings booking_references_url)]) /\
  exists s, [EvRequest (get_request no_bookings booking_references_url)] = [] ++ s /\
            Forall (fun e => ~ is_request DELETE e) s.
Proof.
  apply (cancel_not_found_sends_no_delete no_bookings "alice@example.com"
           "2030-10-11" "09:00" None []).
  vm_compute. reflexivity.
Defined.

(** ** Transport failures during the enumeration *)

Section Enumeration.

Variable env : Env.



End Enumeration.



(** ** Past instants *)

Lemma instant_now (env : Env) (tz : TimeZone) (t : list Event) :
  instant (astimezone tz (fromisoformat (now_utc env t))) = now_utc env t.
Proof. unfold astimezone, fromisoformat, instant. simpl. lia. Qed.

(** The monad laws the proofs below rewrite with. *)
Lemma bind_lift_ret {A B} (a : A) (k : A -> M B) (t : list Event) :
  bind (lift (Ret a)) k t = k a t.
Proof. reflexivity. Qed.


(** The durations create works with never overflow a [timedelta]. *)
Lemma timedelta_minutes_normalized (duration : Z) :
  timedelta_minutes (find_closest_duration duration) =
  Some (find_closest_duration duration * usec_per_minute).
Proof.
  pose proof (find_closest_duration_in duration) as Hin.
  unfold valid_durations in Hin. simpl in Hin.
  repeat (destruct Hin as [<-|Hin]; [reflexivity|]). destruct Hin.
Qed.



(** Create from its request on, once the start is resolved, the end is
    computed and the start is not in the past: one POST, and a returned
    value whatever the answer is. *)
Lemma create_booking_submitted (env : Env) (date time : string) (duration : Z)
    (reason name email loc : string) (parsed start_time end_time : datetime)
    (t : list Event) :
  let adjusted_duration := find_closest_duration duration in
  let post :=
    {| method := POST; url := bookings_url; params := api_key_params env;
       json := CreatePayload start_time end_time 1202446 name email reason
                 (zone (local_zone env)) (before_underscore loc) |} in
  system_locale env = LocaleName loc ->
  strptime (date +:+ " " +:+ time) = Some parsed ->
  localize (local_zone env) parsed = Some start_time ->
  dt_add start_time (adjusted_duration * usec_per_minute) = Some end_time ->
  now_utc env t <= instant start_time ->
  create_booking env date time duration reason name email t =
  (match respond env t post with
   | Responded r =>
       Ret (if status_code r =? 200 then
              JObj [
                ("Date", JStr (strftime_long_date env start_time));
                ("Time", JStr (strftime_12h env start_time +:+ " to "
                               +:+ strftime_12h env end_time +:+ " ("
                               +:+ zone (local_zone env) +:+ ")"));
                ("Duration", JStr (str_of_Z adjusted_duration +:+ " minutes"));
                ("Reason", JStr reason);
                ("Name", JStr name);
                ("Email", JStr email);
                ("Meeting Link",
                 JStr (default "No video call link provided"
                         (metadata_videoCallUrl (body r))))]
            else
              create_error duration adjusted_duration date time reason name
                email (default "Unknown error" (message (body r))))
   | Failed msg => Ret (error_obj ("Error creating booking: " +:+ msg))
   end, t ++ [EvRequest post]).
Proof.
  intros adjusted_duration post Hloc Hparse Hstart Hend Hfuture.
  enter_create Hloc. rewrite Hparse, Hstart. cbn [or_raise].
  rewrite bind_lift_ret, timedelta_minutes_normalized. cbn [or_raise].
  rewrite bind_lift_ret. fold adjusted_duration. rewrite Hend. cbn [or_raise].
  rewrite bind_lift_ret.
  unfold bind at 1. unfold datetime_now, dt_lt. rewrite instant_now.
  replace (instant start_time <? now_utc env t) with false by lia.
  unfold try_except, bind, requests_request. fold post.
  destruct (respond env t post) as [r|msg]; [|reflexivity].
  destruct (status_code r =? 200); reflexivity.
Qed.




(** ** Failure paths of the four operations *)

Lemma spec_returns {A} (m : M A) (E : Event -> Prop) (V : A -> Prop)
    (t : list Event) :
  spec m E V (fun _ => False) -> returns m t.
Proof.
  intros Hm. destruct (Hm t) as (s & _ & _ & Ho). unfold returns.
  destruct (m t) as [[a|e] t']; simpl in *; [eauto|contradiction].
Qed.

Section Failures.

Variable env : Env.

Lemma spec_transport (req : Request) :
  spec (make_api_request env req) (fun _ => True) (fun o => exists r, o = Some r)
       (fun e => is_RequestException e = true).
Proof.
  apply spec_weaken with (E := request_is req)
    (V := fun o => exists r, o = Some r)
    (X := fun e => is_RequestException e = true); auto.
  apply spec_make_api_request.
Qed.








(** The decorator lets pass what is not an [HTTPError]. *)
Lemma retry_with_backoff_other {A} (func : M A) (t t1 : list Event) (e : Exn) :
  func t = (Raise e, t1) -> (forall msg r, e <> HTTPError msg r) ->
  retry_with_backoff env func t = (Raise e, t1).
Proof.
  intros. unfold retry_with_backoff. change (Z.to_nat max_retries) with 5%nat.
  now apply retry_loop_other.
Qed.


(** The body of reschedule once the lookup has found a booking and the new
    start is resolved: the past-time check, then the update. *)
Lemma reschedule_body_resolved
    (user_email meeting_date meeting_time : string)
    (new_date new_time : option string) (new_duration : option Z)
    (b : Booking) (a : Attendee) (rest : list Attendee)
    (start_time end_time : datetime) (t t1 : list Event) :
  truthy_str new_date || truthy_str new_time || truthy_int new_duration = true ->
  _find_booking env user_email meeting_date meeting_time t = (Ret (Some b), t1) ->
  attendees b = a :: rest ->
  new_start_time b (timeZone a) meeting_date meeting_time new_date new_time
    = Ret start_time ->
  new_end_time b start_time new_duration = Ret end_time ->
  reschedule_booking_body env user_email meeting_date meeting_time
    new_date new_time new_duration t =
  if instant start_time <? now_utc env t1 then
    (Raise (ValueError
              "Cannot reschedule a meeting to a past date and time. Please choose a future date and time."),
     t1)
  else
    try_except (
      response <- requests_request env
                    (patch_request env (id b) start_time end_time) ;;
      raise_for_status (booking_url (id b)) response ;;;
      ret (body response))
      (fun e =>
         match e with
         | HTTPError _ _ => Some (raise e)
         | TransportError _ =>
             Some (raise (UnboundLocalError
               "cannot access local variable 'response' where it is not associated with a value"))
         | _ => None
         end) t1.
Proof.
  intros Hnew Hfind Hatt Hstart Hend.
  unfold reschedule_booking_body.
  replace (negb (truthy_str new_date) && negb (truthy_str new_time)
           && negb (truthy_int new_duration)) with false
    by (destruct (truthy_str new_date), (truthy_str new_time),
          (truthy_int new_duration); try reflexivity; discriminate Hnew).
  unfold bind at 1. rewrite Hfind.
  unfold first_attendee. rewrite Hatt.
  unfold bind at 1. simpl. rewrite Hstart, bind_lift_ret, Hend, bind_lift_ret.
  unfold bind at 1. unfold datetime_now, dt_lt. rewrite instant_now.
  destruct (instant start_time <? now_utc env t1); reflexivity.
Qed.

End Failures.


Lemma patch_rejected (env : Env) (req : Request) (u : string) (r : Response)
    (t : list Event) :
  respond env t req = Responded r ->
  400 <= status_code r < 600 ->
  exists msg,
    try_except (
      response <- requests_request env req ;;
      raise_for_status u response ;;;
      ret (body response))
      (fun e =>
         match e with
         | HTTPError _ _ => Some (raise e)
         | TransportError _ =>
             Some (raise (UnboundLocalError
               "cannot access local variable 'response' where it is not associated with a value"))
         | _ => None
         end) t =
    (Raise (HTTPError msg r), t ++ [EvRequest req]).
Proof.
  intros Hr Herr.
  unfold try_except, bind, requests_request, raise_for_status. rewrite Hr.
  destruct ((400 <=? status_code r) && (status_code r <? 500)) eqn:H4;
    [simpl; eauto|].
  replace ((500 <=? status_code r) && (status_code r <? 600)) with true by lia.
  simpl. eauto.
Qed.





(** ** Where the code departs from the specification *)

(** Create snaps the duration: the end it submits is the start plus the
    normalized duration. *)
Lemma create_booking_submits_normalized (env : Env) (date time : string)
    (duration : Z) (reason name email loc : string)
    (parsed start_time end_time : datetime) (t : list Event) :
  system_locale env = LocaleName loc ->
  strptime (date +:+ " " +:+ time) = Some parsed ->
  localize (local_zone env) parsed = Some start_time ->
  dt_add start_time (find_closest_duration duration * usec_per_minute)
    = Some end_time ->
  now_utc env t <= instant start_time ->
  snd (create_booking env date time duration reason name email t) =
  t ++ [EvRequest
          {| method := POST; url := bookings_url;
             params := api_key_params env;
             json := CreatePayload start_time end_time 1202446 name email
                       reason (zone (local_zone env))
                       (before_underscore loc) |}] /\
  dt_sub end_time start_time = find_closest_duration duration * usec_per_minute /\
  In (find_closest_duration duration) valid_durations.
Proof.
  intros Hloc Hparse Hstart Hend Hfuture. split; [|split].
  - rewrite (create_booking_submitted env date time duration reason name email
               loc parsed start_time end_time t Hloc Hparse Hstart Hend Hfuture).
    reflexivity.
  - unfold dt_add in Hend. destruct (representable _); [|discriminate Hend].
    injection Hend as <-. unfold dt_sub, instant. simpl.
    destruct (tzinfo start_time); lia.
  - apply find_closest_duration_in.
Qed.

(** C1, at a reschedule request for 35 minutes: the update is submitted
    with an end 35 minutes after the start, although 35 is not an allowed
    duration (the normalizer would give 30). *)
Theorem reschedule_submits_raw_duration :
  let start_time := fromisoformat (startTime booking_101) in
  let end_time :=
    {| wall := wall start_time + 35 * usec_per_minute;
       tzinfo := tzinfo start_time |} in
  reschedule_booking one_booking "alice@example.com" "2030-10-11" "09:00"
    None None (Some 35) [] =
  (Ret (Some no_body),
   [EvRequest (get_request one_booking booking_references_url);
    EvRequest (get_request one_booking (booking_url 101));
    EvRequest (patch_request one_booking 101 start_time end_time)]) /\
  dt_sub end_time start_time = 35 * usec_per_minute /\
  ~ In 35 valid_durations /\
  find_closest_duration 35 = 30.
Proof.
  intros start_time end_time.
  split; [vm_compute; reflexivity|]. split; [vm_compute; reflexivity|]. split.
  - unfold valid_durations. simpl. intros H.
    repeat (destruct H as [H|H]; [discriminate H|]). exact H.
  - reflexivity.
Qed.

(** C3, at a booking whose first attendee is the host in Tokyo and whose
    second attendee is alice in Singapore: the start is 09:00 on alice's
    clock, yet the lookup for alice at 09:00 finds nothing and the lookup at
    10:00, the host's clock, finds the booking; the listing shows alice
    09:00. *)
Theorem find_booking_uses_first_attendee_zone :
  localized_minute "alice@example.com" booking_102 = Some "2030-10-11T09:00:00" /\
  fst (_find_booking shared_slot "alice@example.com" "2030-10-11" "09:00" [])
    = Ret None /\
  fst (_find_booking shared_slot "alice@example.com" "2030-10-11" "10:00" [])
    = Ret (Some booking_102) /\
  fst (get_user_bookings shared_slot "alice@example.com" []) =
    Ret (JObj [("user_bookings",
                JList [JObj [("startTime", JStr "2030-10-11 09:00:00 +08");
                             ("endTime", JStr "2030-10-11 10:00:00 +08");
                             ("description", JStr "Project sync");
                             ("timezone", JStr "Asia/Singapore");
                             ("locale", JStr "en");
                             ("videoCallUrl", JNull)]])]).
Proof.
  split; [|split; [|split]]; vm_compute; reflexivity.
Qed.

(** C9, at the same booking (first attendee the host in Tokyo, second
    attendee alice in Singapore), the only booking of alice: on her clock
    it starts at 09:00, so that alice has no booking at 10:00; yet cancel
    for alice at 10:00 does not answer not-found: it cancels the booking
    and deletes its reference.  The lookup decides the match on the clock
    of the first attendee. *)
Theorem cancel_matches_on_first_attendee_clock :
  let run :=
    cancel_user_booking shared_slot "alice@example.com" "2030-10-11" "10:00"
      None [] in
  fst (_get_user_bookings_detailed shared_slot "alice@example.com" []) =
    Ret [booking_102] /\
  localized_minute "alice@example.com" booking_102 =
    Some "2030-10-11T09:00:00" /\
  fst run =
    Ret "Successfully cancelled booking and deleted reference for alice@example.com on 2030-10-11 at 10:00" /\
  ((fun r => (method r, url r)) <$> requests_of (snd run)) =
    [(GET, "https://api.cal.com/v1/booking-references");
     (GET, "https://api.cal.com/v1/bookings/102");
     (DELETE, "https://api.cal.com/v1/bookings/102/cancel");
     (GET, "https://api.cal.com/v1/booking-references");
     (DELETE, "https://api.cal.com/v1/booking-references/8")].
Proof.
  split; [|split; [|split]]; vm_compute; reflexivity.
Qed.

(** C5, at a service that answers 429: create sends its request once,
    waits for nothing and returns an error, while the retrying transport
    sends a request five times. *)
Theorem create_booking_does_not_retry :
  let run :=
    create_booking rate_limiting "2030-10-11" "09:00" 30 "Project sync"
      "Alice" "alice@example.com" [] in
  fst run = Ret (error_obj "Error creating booking: Rate limit exceeded") /\
  (method <$> requests_of (snd run)) = [POST] /\
  sleeps_of (snd run) = [] /\
  length (requests_of
            (snd (make_api_request rate_limiting
                    (get_request rate_limiting booking_references_url) [])))
    = 5%nat.
Proof.
  split; [|split; [|split]]; vm_compute; reflexivity.
Qed.

(** C6, at a service that cancels the booking and answers 500 to the
    deletion of its reference: after the accepted cancel call, cancel
    returns a message that does not report the cancellation. *)
Theorem cancel_hides_success_when_reference_delete_fails :
  let run :=
    cancel_user_booking reference_delete_fails "alice@example.com"
      "2030-10-11" "09:00" None [] in
  fst run =
    Ret "Error cancelling booking or deleting reference: 500 Server Error: Internal Server Error for url: https://api.cal.com/v1/booking-references/7" /\
  ((fun r => (method r, url r)) <$> requests_of (snd run)) =
    [(GET, "https://api.cal.com/v1/booking-references");
     (GET, "https://api.cal.com/v1/bookings/101");
     (DELETE, "https://api.cal.com/v1/bookings/101/cancel");
     (GET, "https://api.cal.com/v1/booking-references");
     (DELETE, "https://api.cal.com/v1/booking-references/7")] /\
  respond reference_delete_fails []
    (delete_request (cancel_url 101) (api_key_params reference_delete_fails))
    = ok (message_body "Booking cancelled").
Proof.
  split; [|split]; vm_compute; reflexivity.
Qed.

(** * Further properties of the code *)

(** ** Duration normalizer *)

(** The result is nearest, and the smaller one of two nearest members. *)
Lemma find_closest_duration_best (d m : Z) :
  In m valid_durations ->
  Z.abs (find_closest_duration d - d) <= Z.abs (m - d) /\
  (Z.abs (m - d) = Z.abs (find_closest_duration d - d) ->
   find_closest_duration d <= m).
Proof.
  pose proof valid_durations_sorted as Hs.
  unfold find_closest_duration.
  destruct valid_durations as [|x xs] eqn:Hv; [discriminate|].
  set (key := fun x0 => Z.abs (x0 - d)).
  destruct (min_by_split key x xs) as (l1 & l2 & Heq & H1 & H2).
  set (r := min_by key x xs) in *.
  rewrite Heq in *. clear Heq Hv.
  rewrite List.Forall_forall in H1, H2.
  intros Hm. apply in_app_or in Hm. fold (key r) (key m).
  destruct Hm as [Hm|[<-|Hm]].
  - apply H1 in Hm. lia.
  - lia.
  - split; [now apply H2|]. intros _.
    apply StronglySorted_app_1_r in Hs.
    apply StronglySorted_inv in Hs. destruct Hs as [_ Hall].
    rewrite List.Forall_forall in Hall. apply Hall in Hm. lia.
Qed.

Lemma valid_durations_range (m : Z) : In m valid_durations -> 5 <= m <= 480.
Proof.
  unfold valid_durations. simpl. intros H.
  repeat (destruct H as [<-|H]; [lia|]). destruct H.
Qed.

(** An allowed duration is returned unchanged. *)
Theorem find_closest_duration_fixes_valid (d : Z) :
  In d valid_durations -> find_closest_duration d = d.
Proof.
  intros Hd. destruct (find_closest_duration_best d d Hd) as [Hle _]. lia.
Qed.

Lemma find_closest_duration_fixes_valid_witness :
  find_closest_duration 45 = 45.
Proof.
  apply (find_closest_duration_fixes_valid 45).
  unfold valid_durations. simpl. tauto.
Defined.

(** Normalizing twice is normalizing once. *)
Theorem find_closest_duration_idempotent (d : Z) :
  find_closest_duration (find_closest_duration d) = find_closest_duration d.
Proof.
  destruct (find_closest_duration_best (find_closest_duration d)
              (find_closest_duration d) (find_closest_duration_in d))
    as [Hle _].
  lia.
Qed.

(** A longer request never gets a shorter slot. *)
Theorem find_closest_duration_monotone (d1 d2 : Z) :
  d1 <= d2 -> find_closest_duration d1 <= find_closest_duration d2.
Proof.
  intros Hle.
  destruct (find_closest_duration_best d1 (find_closest_duration d2)
              (find_closest_duration_in d2)) as [H1 T1].
  destruct (find_closest_duration_best d2 (find_closest_duration d1)
              (find_closest_duration_in d1)) as [H2 T2].
  lia.
Qed.

Lemma find_closest_duration_monotone_witness :
  find_closest_duration 52 <= find_closest_duration 58.
Proof. apply find_closest_duration_monotone. lia. Defined.

(** The result lies between 5 and 480; every request of at most 5 minutes
    (zero and negative ones included) gets 5, every request of at least 480
    gets 480. *)
Theorem find_closest_duration_clamps (d : Z) :
  5 <= find_closest_duration d <= 480 /\
  (d <= 5 -> find_closest_duration d = 5) /\
  (480 <= d -> find_closest_duration d = 480).
Proof.
  pose proof (valid_durations_range _ (find_closest_duration_in d)) as Hr.
  split; [exact Hr|]. split; intros Hd.
  - destruct (find_closest_duration_best d 5) as [H _];
      [unfold valid_durations; simpl; tauto|]. lia.
  - destruct (find_closest_duration_best d 480) as [H _];
      [unfold valid_durations; simpl; tauto|]. lia.
Qed.

Lemma find_closest_duration_clamps_witness :
  find_closest_duration (-20) = 5 /\ find_closest_duration 1000 = 480.
Proof.
  destruct (find_closest_duration_clamps (-20)) as (_ & Hlow & _).
  destruct (find_closest_duration_clamps 1000) as (_ & _ & Hhigh).
  split; [apply Hlow; lia|apply Hhigh; lia].
Defined.

(** ** Retrying transport, in every environment *)

Lemma retry_loop_trace (env : Env) (req : Request) (remaining : nat) :
  forall (attempt d : Z) (t : list Event),
    Z.of_nat remaining = max_retries - attempt -> (0 < remaining)%nat ->
    exists n, (n < remaining)%nat /\
      snd (retry_loop env (make_api_request_body env req) remaining attempt d t)
      = backoff_trace env req n d t ++ [EvRequest req].
Proof.
  induction remaining as [|rem IH]; intros attempt d t Hrem Hpos; [lia|].
  destruct (respond env t req) as [r|msg] eqn:Hr.
  - destruct (Z.eq_dec (status_code r) 429) as [H429|Hne].
    + destruct (send_rate_limited env req t) as (msg & r' & Hsend & H429').
      { unfold rate_limited. now rewrite Hr. }
      destruct (Z.eq_dec attempt (max_retries - 1)) as [->|Hlast].
      * exists 0%nat. split; [lia|].
        now rewrite (retry_loop_last env _ rem d t (t ++ [EvRequest req]) msg r' Hsend H429').
      * rewrite (retry_loop_retry env _ rem attempt d t (t ++ [EvRequest req]) msg r' Hsend H429' Hlast).
        destruct (IH (attempt + 1) (d * 2)
                    ((t ++ [EvRequest req]) ++
                     [EvSleep (inject_Z d + uniform01 env (t ++ [EvRequest req]))%Q]))
          as (n & Hn & Htr); [unfold max_retries in *; lia..|].
        exists (S n). split; [lia|]. exact Htr.
    + exists 0%nat. split; [lia|].
      destruct (Z_lt_le_dec (status_code r) 400) as [Hlow|Hhigh];
        [|destruct (Z_lt_le_dec (status_code r) 600) as [Herr|Hbig]].
      * rewrite (retry_loop_ret env _ rem attempt d t (t ++ [EvRequest req]) r); [reflexivity|].
        apply send_success; [exact Hr|lia].
      * destruct (send_error env req t r Hr) as [msg Hsend]; [lia|].
        now rewrite (retry_loop_http_error env _ rem attempt d t (t ++ [EvRequest req]) msg r Hsend Hne).
      * rewrite (retry_loop_ret env _ rem attempt d t (t ++ [EvRequest req]) r); [reflexivity|].
        apply send_success; [exact Hr|lia].
  - exists 0%nat. split; [lia|].
    rewrite (retry_loop_other env _ rem attempt d t (t ++ [EvRequest req]) (TransportError msg));
      [reflexivity|now apply send_failed|discriminate].
Qed.

(** Whatever the service answers, the transport sends the request at
    least once and at most five times and nothing else, and it sleeps once
    between two attempts. *)
Theorem make_api_request_sends_at_most_five (env : Env) (req : Request)
    (t : list Event) :
  exists n, (n <= 4)%nat /\
    requests_of (snd (make_api_request env req t)) =
      requests_of t ++ replicate (S n) req /\
    sleeps_of (snd (make_api_request env req t)) =
      sleeps_of t ++ (backoff_delay env req t <$> seq 0 n).
Proof.
  destruct (retry_loop_trace env req 5 0 1 t) as (n & Hn & Htr);
    [reflexivity|lia|].
  exists n. split; [lia|].
  unfold make_api_request, retry_with_backoff.
  change (Z.to_nat max_retries) with 5%nat. rewrite Htr.
  rewrite requests_of_app, sleeps_of_app.
  rewrite requests_of_backoff_trace, sleeps_of_backoff_trace. simpl.
  rewrite <- app_assoc, app_nil_r. split; [|reflexivity].
  f_equal. change (req :: replicate n req) with (replicate (S n) req).
  now rewrite replicate_S_end.
Qed.

(** With the random value between 0 and 1, both bounds allowed (the
    upper one is what rounding the sum can give), one call through the
    transport sleeps at most 19 seconds in all. *)
Theorem make_api_request_backoff_at_most_19 (env : Env) (req : Request)
    (t : list Event) :
  (forall h, 0 <= uniform01 env h /\ uniform01 env h <= 1)%Q ->
  exists waits,
    sleeps_of (snd (make_api_request env req t)) = sleeps_of t ++ waits /\
    (total waits <= 19)%Q.
Proof.
  intros Hj.
  destruct (retry_loop_trace env req 5 0 1 t) as (n & Hn & Htr);
    [reflexivity|lia|].
  exists (backoff_delay env req t <$> seq 0 n). split.
  - unfold make_api_request, retry_with_backoff.
    change (Z.to_nat max_retries) with 5%nat. rewrite Htr.
    rewrite sleeps_of_app, sleeps_of_backoff_trace. simpl.
    now rewrite app_nil_r.
  - assert (Hup : forall k,
              (backoff_delay env req t k <= inject_Z (1 * 2 ^ Z.of_nat k) + 1)%Q).
    { intros k. unfold backoff_delay.
      destruct (Hj (backoff_trace env req k 1 t ++ [EvRequest req])) as [_ H1].
      lra. }
    pose proof (Hup 0%nat) as H0. pose proof (Hup 1%nat) as H1.
    pose proof (Hup 2%nat) as H2. pose proof (Hup 3%nat) as H3.
    change (inject_Z (1 * 2 ^ Z.of_nat 0)) with (1 # 1)%Q in H0.
    change (inject_Z (1 * 2 ^ Z.of_nat 1)) with (2 # 1)%Q in H1.
    change (inject_Z (1 * 2 ^ Z.of_nat 2)) with (4 # 1)%Q in H2.
    change (inject_Z (1 * 2 ^ Z.of_nat 3)) with (8 # 1)%Q in H3.
    assert (Hlo : forall k, (0 <= backoff_delay env req t k)%Q).
    { intros k. unfold backoff_delay.
      destruct (Hj (backoff_trace env req k 1 t ++ [EvRequest req])) as [Hk _].
      assert (Hp : 0 < 2 ^ Z.of_nat k) by (apply Z.pow_pos_nonneg; lia).
      assert (Hq : (0 <= inject_Z (1 * 2 ^ Z.of_nat k))%Q)
        by (change 0%Q with (inject_Z 0); rewrite <- Zle_Qle; lia).
      lra. }
    pose proof (Hlo 0%nat). pose proof (Hlo 1%nat).
    pose proof (Hlo 2%nat). pose proof (Hlo 3%nat).
    destruct n as [|[|[|[|[|n]]]]]; [..|lia]; unfold total; simpl; lra.
Qed.

Lemma make_api_request_backoff_at_most_19_witness :
  exists waits,
    sleeps_of (snd (make_api_request busy_then_ok
                      (get_request busy_then_ok booking_references_url) []))
      = sleeps_of [] ++ waits /\
    (total waits <= 19)%Q.
Proof.
  apply make_api_request_backoff_at_most_19.
  intros h. simpl. split; discriminate.
Defined.

(** ** Booking creation and its tool *)




(** When the locale has a name, the date and time resolve to a start that
    is not in the past, the end is within the range of [datetime] and the
    service answers the POST with 200, create sends that one request and
    returns a summary whose duration is the normalized one, whose reason,
    name and email are the given ones, and whose meeting link is the
    service's or the placeholder. *)
Theorem create_booking_success (env : Env) (date time : string) (duration : Z)
    (reason name email loc : string) (parsed start_time end_time : datetime)
    (r : Response) (t : list Event) :
  let post :=
    {| method := POST; url := bookings_url; params := api_key_params env;
       json := CreatePayload start_time end_time 1202446 name email reason
                 (zone (local_zone env)) (before_underscore loc) |} in
  system_locale env = LocaleName loc ->
  strptime (date +:+ " " +:+ time) = Some parsed ->
  localize (local_zone env) parsed = Some start_time ->
  dt_add start_time (find_closest_duration duration * usec_per_minute)
    = Some end_time ->
  now_utc env t <= instant start_time ->
  respond env t post = Responded r ->
  status_code r = 200 ->
  exists summary,
    create_booking env date time duration reason name email t =
      (Ret summary, t ++ [EvRequest post]) /\
    json_get "error" summary = None /\
    json_get "Duration" summary =
      Some (JStr (str_of_Z (find_closest_duration duration) +:+ " minutes")) /\
    json_get "Reason" summary = Some (JStr reason) /\
    json_get "Name" summary = Some (JStr name) /\
    json_get "Email" summary = Some (JStr email) /\
    json_get "Meeting Link" summary =
      Some (JStr (default "No video call link provided"
                    (metadata_videoCallUrl (body r)))).
Proof.
  intros post Hloc Hparse Hstart Hend Hfuture Hr H200.
  eexists. split.
  - rewrite (create_booking_submitted env date time duration reason name email
               loc parsed start_time end_time t Hloc Hparse Hstart Hend Hfuture).
    fold post. rewrite Hr, H200. reflexivity.
  - simpl. tauto.
Qed.

Lemma create_booking_success_witness :
  exists summary,
    fst (create_booking one_booking "2030-10-11" "09:00" 35 "Project sync"
           "Alice" "alice@example.com" []) = Ret summary /\
    json_get "Duration" summary = Some (JStr "30 minutes").
Proof.
  destruct (create_booking_success one_booking "2030-10-11" "09:00" 35
              "Project sync" "Alice" "alice@example.com" "en_US"
              (naive (wall_of_civil 2030 10 11 9 0))
              {| wall := wall_of_civil 2030 10 11 9 0;
                 tzinfo := Some (at_wall singapore 0) |}
              {| wall := wall_of_civil 2030 10 11 9 30;
                 tzinfo := Some (at_wall singapore 0) |}
              {| status_code := 200; reason_phrase := "OK"; body := no_body |}
              [])
    as (summary & Hrun & _ & Hduration & _).
  - reflexivity.
  - vm_compute. reflexivity.
  - vm_compute. reflexivity.
  - vm_compute. reflexivity.
  - vm_compute. discriminate.
  - vm_compute. reflexivity.
  - reflexivity.
  - exists summary. rewrite Hrun. split; [reflexivity|exact Hduration].
Defined.

(** Under the same conditions on the locale and the dates, when the POST
    cannot be delivered create returns the error object that carries the
    text of the exception; the request is not repeated. *)
Theorem create_booking_transport_failure (env : Env) (date time : string)
    (duration : Z) (reason name email loc : string)
    (parsed start_time end_time : datetime) (msg : string) (t : list Event) :
  let post :=
    {| method := POST; url := bookings_url; params := api_key_params env;
       json := CreatePayload start_time end_time 1202446 name email reason
                 (zone (local_zone env)) (before_underscore loc) |} in
  system_locale env = LocaleName loc ->
  strptime (date +:+ " " +:+ time) = Some parsed ->
  localize (local_zone env) parsed = Some start_time ->
  dt_add start_time (find_closest_duration duration * usec_per_minute)
    = Some end_time ->
  now_utc env t <= instant start_time ->
  respond env t post = Failed msg ->
  create_booking env date time duration reason name email t =
    (Ret (error_obj ("Error creating booking: " +:+ msg)),
     t ++ [EvRequest post]).
Proof.
  intros post Hloc Hparse Hstart Hend Hfuture Hr.
  rewrite (create_booking_submitted env date time duration reason name email
             loc parsed start_time end_time t Hloc Hparse Hstart Hend Hfuture).
  fold post. now rewrite Hr.
Qed.

Lemma create_booking_transport_failure_witness :
  fst (create_booking unreachable "2030-10-11" "09:00" 30 "Project sync"
         "Alice" "alice@example.com" []) =
  Ret (error_obj "Error creating booking: Connection refused").
Proof.
  rewrite (create_booking_transport_failure unreachable "2030-10-11" "09:00"
             30 "Project sync" "Alice" "alice@example.com" "en_US"
             (naive (wall_of_civil 2030 10 11 9 0))
             {| wall := wall_of_civil 2030 10 11 9 0;
                tzinfo := Some (at_wall singapore 0) |}
             {| wall := wall_of_civil 2030 10 11 9 30;
                tzinfo := Some (at_wall singapore 0) |}
             "Connection refused" []).
  - reflexivity.
  - reflexivity.
  - vm_compute. reflexivity.
  - vm_compute. reflexivity.
  - vm_compute. reflexivity.
  - vm_compute. discriminate.
  - vm_compute. reflexivity.
Defined.

(** ** Enumeration and listing *)

Lemma is_user_booking_iff (user_email : string) (b : Booking) :
  is_user_booking user_email b = true <->
  status b <> Some "CANCELLED" /\
  exists a, In a (attendees b) /\ email a = user_email.
Proof.
  unfold is_user_booking. rewrite andb_true_iff, negb_true_iff.
  rewrite bool_decide_eq_false, existsb_exists.
  split; intros [Hs (a & Ha & He)]; (split; [exact Hs|]); exists a;
    (split; [exact Ha|]); now apply String.eqb_eq.
Qed.

Lemma attendee_of_user_booking (user_email : string) (b : Booking) :
  is_user_booking user_email b = true ->
  exists a, attendee_of user_email b = Some a /\ In a (attendees b) /\
            email a = user_email.
Proof.
  intros Hb. apply is_user_booking_iff in Hb as [_ (a & Ha & He)].
  unfold attendee_of.
  destruct (List.find _ (attendees b)) as [a'|] eqn:Hfind.
  - apply find_some in Hfind as [Hin Heq]. apply String.eqb_eq in Heq. eauto.
  - apply (find_none _ _ Hfind) in Ha. apply String.eqb_neq in Ha. contradiction.
Qed.

(** The enumeration raises nothing, sends only GET requests, and every
    booking it returns is not cancelled and has the user among its
    attendees. *)
Theorem enumeration_returns_user_bookings (env : Env) (user_email : string)
    (t : list Event) :
  exists l s,
    _get_user_bookings_detailed env user_email t = (Ret l, t ++ s) /\
    Forall read_only s /\
    forall b, In b l ->
      status b <> Some "CANCELLED" /\
      exists a, In a (attendees b) /\ email a = user_email.
Proof.
  destruct (spec_get_user_bookings_detailed env user_email t)
    as (s & Ht & HE & Ho).
  destruct (_get_user_bookings_detailed env user_email t) as [[l|e] t'];
    simpl in *; [|contradiction].
  exists l, s. subst t'. split; [reflexivity|]. split; [exact HE|].
  intros b Hb. apply is_user_booking_iff.
  unfold user_bookings_only in Ho. rewrite List.Forall_forall in Ho. auto.
Qed.

(** Listing never returns the error object: it returns one entry for each
    enumerated booking, in the same order, and each entry shows the start in
    the zone recorded for the user, with that zone's name. *)
Theorem get_user_bookings_lists_enumeration (env : Env) (user_email : string)
    (t : list Event) :
  exists l t',
    _get_user_bookings_detailed env user_email t = (Ret l, t') /\
    get_user_bookings env user_email t =
      (Ret (JObj [("user_bookings",
                   JList (simplified_booking user_email <$> l))]), t') /\
    forall b, In b l ->
      exists a,
        In a (attendees b) /\ email a = user_email /\
        json_get "timezone" (simplified_booking user_email b) =
          Some (JStr (zone (timeZone a))) /\
        json_get "startTime" (simplified_booking user_email b) =
          Some (JStr (strftime_seconds_zone
                        (astimezone (timeZone a)
                           (fromisoformat (startTime b))))).
Proof.
  destruct (spec_get_user_bookings_detailed env user_email t)
    as (s & Ht & HE & Ho).
  destruct (_get_user_bookings_detailed env user_email t) as [[l|e] t'] eqn:Hrun;
    simpl in *; [|contradiction].
  exists l, t'. split; [reflexivity|]. split.
  - unfold get_user_bookings, try_except, bind. rewrite Hrun. reflexivity.
  - intros b Hb.
    unfold user_bookings_only in Ho. rewrite List.Forall_forall in Ho.
    destruct (attendee_of_user_booking user_email b (Ho b Hb))
      as (a & Hfind & Hin & He).
    exists a. split; [exact Hin|]. split; [exact He|].
    unfold simplified_booking. rewrite Hfind. simpl. split; reflexivity.
Qed.

(** The listing tool says "No bookings found" exactly when the enumeration
    is empty, and otherwise reports the number of enumerated bookings. *)
Theorem list_tool_reports_count (env : Env) (email : string) (t : list Event) :
  exists l t',
    _get_user_bookings_detailed env email t = (Ret l, t') /\
    CalComGetUserBookingsTool_run env email t =
      (Ret (match l with
            | [] => [Lit ("No bookings found for " +:+ email +:+ ".")]
            | _ :: _ =>
                [Lit ("Found " +:+ str_of_Z (Z.of_nat (length l))
                      +:+ " bookings for " +:+ email +:+ ". Booking details: ");
                 Dump (JObj [("user_bookings",
                              JList (simplified_booking email <$> l))])]
            end), t').
Proof.
  destruct (spec_get_user_bookings_detailed env email t)
    as (s & Ht & HE & Ho).
  destruct (_get_user_bookings_detailed env email t) as [[l|e] t'] eqn:Hrun;
    simpl in *; [|contradiction].
  exists l, t'. split; [reflexivity|].
  unfold CalComGetUserBookingsTool_run, wrap_exception, try_except.
  unfold bind at 1. unfold get_user_bookings, try_except, bind.
  rewrite Hrun. destruct l as [|b l]; [reflexivity|].
  simpl. rewrite length_fmap. reflexivity.
Qed.

Lemma unique_booking_ids_spec (refs : list Reference) (i : Z) :
  In i (elements (unique_booking_ids refs)) ->
  exists ref, In ref refs /\ deleted ref = None /\ bookingId ref = i.
Proof.
  intros Hin. apply list_elem_of_In, elem_of_elements in Hin.
  unfold unique_booking_ids in Hin.
  apply elem_of_list_to_set, list_elem_of_fmap in Hin as (ref & -> & Href).
  apply list_elem_of_In, filter_In in Href as [Href Hdel].
  apply bool_decide_eq_true in Hdel. eauto.
Qed.

Lemma spec_fetch_referenced (env : Env) (user_email : string)
    (refs : list Reference) (ids : list Z) :
  (forall i, In i ids ->
     exists ref, In ref refs /\ deleted ref = None /\ bookingId ref = i) ->
  forall acc,
    spec (fetch_user_bookings env user_email ids acc)
         (fetches_referenced env refs) (fun _ => True)
         (fun e => is_RequestException e = true).
Proof.
  induction ids as [|i ids IH]; intros Hids acc; simpl.
  - now apply spec_ret.
  - assert (Hrest : forall j, In j ids ->
              exists ref, In ref refs /\ deleted ref = None /\ bookingId ref = j)
      by (intros j Hj; apply Hids; now right).
    eapply spec_bind.
    + apply spec_weaken with (E := request_is (get_request env (booking_url i)))
        (V := fun o => exists r, o = Some r)
        (X := fun e => is_RequestException e = true).
      * apply spec_make_api_request.
      * intros [q|d]; simpl; [|auto]. intros ->.
        destruct (Hids i) as (ref & Href & Hdel & Hid); [now left|].
        exists ref. now rewrite Hid.
      * intros o Ho. exact Ho.
      * intros e He. exact He.
    + intros o [r ->]. simpl.
      eapply spec_bind; [apply spec_ret with (V := fun _ => True); exact I|].
      intros r' _. destruct (booking (body r')) as [b|]; [|now apply IH].
      destruct (is_user_booking user_email b); now apply IH.
Qed.

(** After the list of references has been fetched, the enumeration asks
    only for bookings that a reference not marked deleted points to. *)
Theorem enumeration_skips_deleted_references (env : Env) (user_email : string)
    (r : Response) (t t1 : list Event) :
  make_api_request env (get_request env booking_references_url) t =
    (Ret (Some r), t1) ->
  exists s,
    snd (_get_user_bookings_detailed env user_email t) = t1 ++ s /\
    Forall (fetches_referenced env (default [] (booking_references (body r)))) s.
Proof.
  intros Hrefs.
  destruct (spec_fetch_referenced env user_email
              (default [] (booking_references (body r)))
              (elements (unique_booking_ids
                           (default [] (booking_references (body r)))))
              (unique_booking_ids_spec _) [] t1) as (s & Hs & HE & Ho).
  exists s. split; [|exact HE].
  unfold _get_user_bookings_detailed, try_except. unfold bind at 1.
  rewrite Hrefs. simpl. unfold bind at 1. simpl.
  destruct (fetch_user_bookings env user_email _ [] t1) as [[l|e] t2];
    simpl in *; [exact Hs|].
  rewrite Ho. exact Hs.
Qed.

Lemma enumeration_skips_deleted_references_witness :
  exists s,
    snd (_get_user_bookings_detailed one_booking "alice@example.com" []) =
      [EvRequest (get_request one_booking booking_references_url)] ++ s /\
    Forall (fetches_referenced one_booking [reference_7]) s.
Proof.
  apply (enumeration_skips_deleted_references one_booking "alice@example.com"
           {| status_code := 200; reason_phrase := "OK";
              body := references_body [reference_7] |} []).
  vm_compute. reflexivity.
Defined.

(** ** Lookup *)

Lemma find_matching_first (user_email target : string) (l : list Booking)
    (t : list Event) :
  user_bookings_only user_email l ->
  exists o,
    find_matching target l t = (Ret o, t) /\
    first_such (first_zone_minute_is target) l o.
Proof.
  induction l as [|b l IH]; intros Hl; simpl.
  - exists None. split; [reflexivity|]. intros y [].
  - inversion Hl as [|? ? Hb Hl']; subst.
    destruct (is_user_booking_attendees _ _ Hb) as (a & rest & Ha).
    unfold first_attendee. rewrite Ha. unfold bind. simpl.
    destruct (String.eqb_spec
                (strftime_minute
                   (astimezone (timeZone a) (fromisoformat (startTime b))))
                target) as [Heq|Hne].
    + exists (Some b). split; [reflexivity|].
      exists [], l. split; [reflexivity|]. split; [|intros y []].
      exists a, rest. auto.
    + destruct (IH Hl') as (o & Hrun & Hfirst).
      exists o. split; [exact Hrun|].
      assert (Hnot : ~ first_zone_minute_is target b).
      { intros (a' & rest' & Ha' & Hm). rewrite Ha in Ha'.
        injection Ha' as <- <-. contradiction. }
      destruct o as [x|]; simpl in *.
      * destruct Hfirst as (l1 & l2 & -> & Hx & Hbefore).
        exists (b :: l1), l2. split; [reflexivity|]. split; [exact Hx|].
        intros y [<-|Hy]; auto.
      * intros y [<-|Hy]; auto.
Qed.

(** The lookup returns the first enumerated booking whose start, on the
    clock of the booking's first attendee, reads the requested date and time
    to the minute, and nothing when there is none; it sends no request of its
    own after the enumeration. *)
Theorem find_booking_first_match (env : Env)
    (user_email meeting_date meeting_time : string) (t : list Event) :
  exists l o t',
    _get_user_bookings_detailed env user_email t = (Ret l, t') /\
    _find_booking env user_email meeting_date meeting_time t = (Ret o, t') /\
    first_such
      (first_zone_minute_is (meeting_date +:+ "T" +:+ meeting_time +:+ ":00"))
      l o.
Proof.
  destruct (spec_get_user_bookings_detailed env user_email t)
    as (s & Ht & HE & Ho).
  destruct (_get_user_bookings_detailed env user_email t) as [[l|e] t'] eqn:Hrun;
    simpl in *; [|contradiction].
  destruct (find_matching_first user_email
              (meeting_date +:+ "T" +:+ meeting_time +:+ ":00") l t' Ho)
    as (o & Hfind & Hfirst).
  exists l, o, t'. split; [reflexivity|]. split; [|exact Hfirst].
  unfold _find_booking, bind. rewrite Hrun. exact Hfind.
Qed.

Lemma first_zone_is_own_zone (user_email target : string) (b : Booking)
    (a : Attendee) (rest : list Attendee) :
  attendees b = a :: rest -> email a = user_email ->
  (first_zone_minute_is target b <-> localized_minute user_email b = Some target).
Proof.
  intros Ha He. unfold first_zone_minute_is, localized_minute, attendee_of.
  rewrite Ha. simpl. rewrite He, String.eqb_refl. simpl. split.
  - intros (a' & rest' & [= <- <-] & <-). reflexivity.
  - intros [= <-]. eauto.
Qed.

(** When the user is the first attendee of every enumerated booking, the
    lookup returns the first booking whose start in the user's own recorded
    zone reads the requested date and time to the minute. *)
Theorem find_booking_own_zone (env : Env)
    (user_email meeting_date meeting_time : string) (l : list Booking)
    (t t' : list Event) :
  _get_user_bookings_detailed env user_email t = (Ret l, t') ->
  (forall b, In b l ->
     exists a rest, attendees b = a :: rest /\ email a = user_email) ->
  exists o,
    _find_booking env user_email meeting_date meeting_time t = (Ret o, t') /\
    first_such
      (fun b => localized_minute user_email b =
                Some (meeting_date +:+ "T" +:+ meeting_time +:+ ":00"))
      l o.
Proof.
  intros Hrun Hfirst_att.
  destruct (spec_run _ _ _ _ _ _ _
              (spec_get_user_bookings_detailed env user_email) Hrun)
    as [_ Hl].
  destruct (find_matching_first user_email
              (meeting_date +:+ "T" +:+ meeting_time +:+ ":00") l t' Hl)
    as (o & Hfind & Hfirst).
  exists o. split; [unfold _find_booking, bind; rewrite Hrun; exact Hfind|].
  assert (Heqv : forall b, In b l ->
            (first_zone_minute_is
               (meeting_date +:+ "T" +:+ meeting_time +:+ ":00") b <->
             localized_minute user_email b =
               Some (meeting_date +:+ "T" +:+ meeting_time +:+ ":00"))).
  { intros b Hb. destruct (Hfirst_att b Hb) as (a & rest & Ha & He).
    now apply (first_zone_is_own_zone user_email _ b a rest). }
  destruct o as [x|]; simpl in *.
  - destruct Hfirst as (l1 & l2 & -> & Hx & Hbefore).
    exists l1, l2. split; [reflexivity|]. split.
    + apply Heqv; [apply in_or_app; right; now left|exact Hx].
    + intros y Hy Hm. apply (Hbefore y Hy).
      apply Heqv; [apply in_or_app; now left|exact Hm].
  - intros y Hy Hm. apply (Hfirst y Hy). now apply Heqv.
Qed.

Lemma find_booking_own_zone_witness :
  exists o,
    _find_booking one_booking "alice@example.com" "2030-10-11" "09:00" [] =
      (Ret o,
       [EvRequest (get_request one_booking booking_references_url);
        EvRequest (get_request one_booking (booking_url 101))]) /\
    first_such
      (fun b => localized_minute "alice@example.com" b =
                Some ("2030-10-11" +:+ "T" +:+ "09:00" +:+ ":00"))
      [booking_101] o.
Proof.
  apply (find_booking_own_zone one_booking "alice@example.com" "2030-10-11"
           "09:00" [booking_101] []).
  - vm_compute. reflexivity.
  - intros b [<-|[]]. exists alice, []. split; reflexivity.
Defined.

(** ** Cancellation *)

Lemma make_api_request_first_try (env : Env) (req : Request) (r : Response)
    (t : list Event) :
  respond env t req = Responded r -> no_error_status r ->
  make_api_request env req t = (Ret (Some r), t ++ [EvRequest req]).
Proof.
  intros Hr Hok. unfold make_api_request, retry_with_backoff.
  change (Z.to_nat max_retries) with 5%nat.
  apply retry_loop_ret. now apply send_success.
Qed.

Lemma delete_booking_reference_skip (env : Env)
    (user_email meeting_date meeting_time : string) (booking_id : Z)
    (l1 rest : list Reference) (t : list Event) :
  (forall y, In y l1 -> bookingId y <> booking_id) ->
  delete_booking_reference env user_email meeting_date meeting_time booking_id
    (l1 ++ rest) t =
  delete_booking_reference env user_email meeting_date meeting_time booking_id
    rest t.
Proof.
  induction l1 as [|y l1 IH]; intros Hno; [reflexivity|].
  simpl. destruct (Z.eqb_spec (bookingId y) booking_id) as [Heq|_].
  - destruct (Hno y); [now left|exact Heq].
  - apply IH. intros z Hz. apply Hno. now right.
Qed.

(** The three outcomes of cancel after an accepted cancel call (status
    200) and a delivered list of references: no reference points to the
    booking; the first reference that points to it is deleted with status
    200; its deletion is answered with another status that is no error. *)
Theorem cancel_after_accepted_call (env : Env)
    (user_email meeting_date meeting_time : string)
    (cancellation_reason : option string) (b : Booking) (cr rr : Response)
    (t t1 : list Event) :
  let cancel_call :=
    delete_request (cancel_url (id b)) (cancel_params env cancellation_reason) in
  let t2 := t1 ++ [EvRequest cancel_call] in
  let t3 := t2 ++ [EvRequest (get_request env booking_references_url)] in
  let refs := default [] (booking_references (body rr)) in
  _find_booking env user_email meeting_date meeting_time t = (Ret (Some b), t1) ->
  respond env t1 cancel_call = Responded cr -> status_code cr = 200 ->
  respond env t2 (get_request env booking_references_url) = Responded rr ->
  no_error_status rr ->
  ((forall ref, In ref refs -> bookingId ref <> id b) ->
   cancel_user_booking env user_email meeting_date meeting_time
     cancellation_reason t =
   (Ret ("Successfully cancelled booking for " +:+ user_email +:+ " on "
         +:+ meeting_date +:+ " at " +:+ meeting_time
         +:+ ", but no matching reference found to delete"), t3)) /\
  (forall l1 ref l2 dr,
     refs = l1 ++ ref :: l2 ->
     (forall y, In y l1 -> bookingId y <> id b) ->
     bookingId ref = id b ->
     respond env t3
       (delete_request (reference_url (ref_id ref)) (api_key_params env))
       = Responded dr ->
     no_error_status dr ->
     cancel_user_booking env user_email meeting_date meeting_time
       cancellation_reason t =
     (Ret (if status_code dr =? 200 then
             "Successfully cancelled booking and deleted reference for "
             +:+ user_email +:+ " on " +:+ meeting_date +:+ " at "
             +:+ meeting_time
           else
             "Booking cancelled but error deleting reference: "
             +:+ default "Unknown error" (message (body dr))),
      t3 ++ [EvRequest (delete_request (reference_url (ref_id ref))
                          (api_key_params env))])).
Proof.
  intros cancel_call t2 t3 refs Hfind Hcr H200 Hrr Hrr_ok.
  assert (Hcancel : cancel_user_booking env user_email meeting_date meeting_time
              cancellation_reason t =
            try_except
              (delete_booking_reference env user_email meeting_date
                 meeting_time (id b) refs)
              (fun e =>
                 if is_RequestException e then
                   Some (ret ("Error cancelling booking or deleting reference: "
                              +:+ exn_str e))
                 else None) t3).
  { unfold cancel_user_booking. unfold bind at 1. rewrite Hfind.
    unfold try_except. unfold bind at 1.
    fold (cancel_params env cancellation_reason). fold cancel_call.
    rewrite (make_api_request_first_try env cancel_call cr t1 Hcr)
      by (unfold no_error_status; lia).
    simpl. unfold bind at 1. simpl. rewrite H200. simpl.
    unfold bind at 1. fold t2.
    rewrite (make_api_request_first_try env _ rr t2 Hrr Hrr_ok).
    simpl. unfold bind at 1. simpl. reflexivity. }
  split.
  - intros Hnone. rewrite Hcancel. unfold try_except.
    rewrite <- (app_nil_r refs).
    rewrite delete_booking_reference_skip by exact Hnone. reflexivity.
  - intros l1 ref l2 dr Hrefs Hbefore Hmatch Hdr Hdr_ok.
    rewrite Hcancel. unfold try_except. rewrite Hrefs.
    rewrite delete_booking_reference_skip by exact Hbefore.
    simpl. rewrite Hmatch, Z.eqb_refl. unfold bind at 1.
    rewrite (make_api_request_first_try env _ dr t3 Hdr Hdr_ok).
    simpl. unfold bind at 1. simpl.
    destruct (status_code dr =? 200); reflexivity.
Qed.

Lemma cancel_after_accepted_call_witness :
  fst (cancel_user_booking one_booking "alice@example.com" "2030-10-11"
         "09:00" (Some "Change of plans") []) =
  Ret "Successfully cancelled booking and deleted reference for alice@example.com on 2030-10-11 at 09:00".
Proof.
  destruct (cancel_after_accepted_call one_booking "alice@example.com"
              "2030-10-11" "09:00" (Some "Change of plans") booking_101
              {| status_code := 200; reason_phrase := "OK"; body := no_body |}
              {| status_code := 200; reason_phrase := "OK";
                 body := references_body [reference_7] |}
              []
              [EvRequest (get_request one_booking booking_references_url);
               EvRequest (get_request one_booking (booking_url 101))])
    as [_ Hdeleted].
  - vm_compute. reflexivity.
  - vm_compute. reflexivity.
  - reflexivity.
  - vm_compute. reflexivity.
  - unfold no_error_status. simpl. lia.
  - rewrite (Hdeleted [] reference_7 []
               {| status_code := 200; reason_phrase := "OK"; body := no_body |}).
    + reflexivity.
    + reflexivity.
    + intros y [].
    + reflexivity.
    + vm_compute. reflexivity.
    + unfold no_error_status. simpl. lia.
Defined.

Lemma spec_delete_only_matching (env : Env)
    (user_email meeting_date meeting_time : string) (b : Booking)
    (cancellation_reason : option string) (refs0 refs : list Reference) :
  (forall ref, In ref refs -> In ref refs0) ->
  spec (delete_booking_reference env user_email meeting_date meeting_time
          (id b) refs)
       (cancels_only env b cancellation_reason refs0) (fun _ => True)
       (fun e => is_RequestException e = true).
Proof.
  induction refs as [|reference rest IH]; intros Hsub; simpl;
    [now apply spec_ret|].
  assert (Hrest : forall ref, In ref rest -> In ref refs0)
    by (intros ref Href; apply Hsub; now right).
  destruct (Z.eqb_spec (bookingId reference) (id b)) as [Hmatch|_];
    [|exact (IH Hrest)].
  eapply spec_bind.
  - apply spec_weaken
      with (E := request_is (delete_request (reference_url (ref_id reference))
                               (api_key_params env)))
           (V := fun o => exists r, o = Some r)
           (X := fun e => is_RequestException e = true).
    + apply spec_make_api_request.
    + intros [q|d]; simpl; [|auto]. intros ->. right. right.
      exists reference. split; [apply Hsub; now left|]. split; [exact Hmatch|].
      reflexivity.
    + intros o Ho. exact Ho.
    + intros e He. exact He.
  - intros o [r ->]. simpl.
    eapply spec_bind; [apply spec_ret with (V := fun _ => True); exact I|].
    intros dr _. destruct (status_code dr =? 200); now apply spec_ret.
Qed.

(** Once the lookup has found a booking, cancel sends nothing but the
    cancel call for that booking, the GET of the references and the deletion
    of references that the answer to that GET lists for that booking: no
    other booking is cancelled, no other reference is deleted, nothing is
    created or updated. *)
Theorem cancel_touches_only_found_booking (env : Env)
    (user_email meeting_date meeting_time : string)
    (cancellation_reason : option string) (b : Booking) (t t1 : list Event) :
  _find_booking env user_email meeting_date meeting_time t = (Ret (Some b), t1) ->
  exists s,
    snd (cancel_user_booking env user_email meeting_date meeting_time
           cancellation_reason t) = t1 ++ s /\
    Forall (cancels_only env b cancellation_reason
              (cancel_references env b cancellation_reason t1)) s.
Proof.
  intros Hfind.
  unfold cancel_user_booking. unfold bind at 1. rewrite Hfind.
  unfold cancel_references.
  fold (cancel_params env cancellation_reason).
  set (cancel_call := delete_request (cancel_url (id b))
                        (cancel_params env cancellation_reason)).
  set (list_call := get_request env booking_references_url).
  assert (Hcall : forall refs e,
            request_is cancel_call e ->
            cancels_only env b cancellation_reason refs e).
  { intros refs [q|d]; simpl; [|auto]. intros ->. now left. }
  assert (Hlist : forall refs e,
            request_is list_call e ->
            cancels_only env b cancellation_reason refs e).
  { intros refs [q|d]; simpl; [|auto]. intros ->. right. now left. }
  unfold try_except. unfold bind at 1.
  destruct (make_api_request env cancel_call t1) as [[o|e] t2] eqn:H1.
  - destruct (spec_run _ _ _ _ _ _ _ (spec_make_api_request env cancel_call) H1)
      as [(s1 & -> & HE1) [cr ->]].
    simpl. unfold bind at 1. simpl.
    destruct (status_code cr =? 200).
    + unfold bind at 1.
      destruct (make_api_request env list_call (t1 ++ s1)) as [[o|e] t3] eqn:H2.
      * destruct (spec_run _ _ _ _ _ _ _
                    (spec_make_api_request env list_call) H2)
          as [(s2 & -> & HE2) [rr ->]].
        simpl. unfold bind at 1. simpl.
        set (refs := default [] (booking_references (body rr))).
        destruct (spec_delete_only_matching env user_email meeting_date
                    meeting_time b cancellation_reason refs refs
                    (fun ref H => H) ((t1 ++ s1) ++ s2))
          as (s3 & Hs3 & HE3 & Ho3).
        destruct (delete_booking_reference env user_email meeting_date
                    meeting_time (id b) refs ((t1 ++ s1) ++ s2))
          as [[text|e] t4]; simpl in *; subst t4.
        -- exists (s1 ++ s2 ++ s3). rewrite !app_assoc. split; [reflexivity|].
           rewrite !Forall_app. split; [split|]; [| |exact HE3];
             (eapply Forall_impl; [eassumption|]); auto.
        -- rewrite Ho3. simpl.
           exists (s1 ++ s2 ++ s3). rewrite !app_assoc. split; [reflexivity|].
           rewrite !Forall_app. split; [split|]; [| |exact HE3];
             (eapply Forall_impl; [eassumption|]); auto.
      * destruct (spec_run _ _ _ _ _ _ _
                    (spec_make_api_request env list_call) H2)
          as [(s2 & -> & HE2) He].
        simpl in He. rewrite He. simpl.
        exists (s1 ++ s2). rewrite app_assoc. split; [reflexivity|].
        rewrite Forall_app. split; (eapply Forall_impl; [eassumption|]); auto.
    + simpl. exists s1. split; [reflexivity|].
      eapply Forall_impl; [exact HE1|]. auto.
  - destruct (spec_run _ _ _ _ _ _ _ (spec_make_api_request env cancel_call) H1)
      as [(s1 & -> & HE1) He].
    simpl in He. rewrite He. simpl. exists s1. split; [reflexivity|].
    eapply Forall_impl; [exact HE1|]. auto.
Qed.

Lemma cancel_touches_only_found_booking_witness :
  exists s,
    snd (cancel_user_booking one_booking "alice@example.com" "2030-10-11"
           "09:00" None []) =
      [EvRequest (get_request one_booking booking_references_url);
       EvRequest (get_request one_booking (booking_url 101))] ++ s /\
    Forall (cancels_only one_booking booking_101 None [reference_7]) s.
Proof.
  apply (cancel_touches_only_found_booking one_booking "alice@example.com"
           "2030-10-11" "09:00" None booking_101 []).
  vm_compute. reflexivity.
Defined.

Lemma make_api_request_http_error (env : Env) (req : Request) (r : Response)
    (t : list Event) :
  respond env t req = Responded r ->
  400 <= status_code r < 600 -> status_code r <> 429 ->
  exists msg,
    make_api_request env req t = (Raise (HTTPError msg r), t ++ [EvRequest req]).
Proof.
  intros Hr Herr Hne.
  destruct (send_error env req t r Hr Herr) as [msg Hsend].
  exists msg. unfold make_api_request, retry_with_backoff.
  change (Z.to_nat max_retries) with 5%nat.
  now apply retry_loop_http_error.
Qed.

(** When the cancel call is not answered with 200, cancel stops there: the
    references are neither read nor deleted.  An error status other than 429
    gives the message of the request exception; any other status that is not
    200 gives the message of the response body. *)
Theorem cancel_call_not_accepted (env : Env)
    (user_email meeting_date meeting_time : string)
    (cancellation_reason : option string) (b : Booking) (cr : Response)
    (t t1 : list Event) :
  let cancel_call :=
    delete_request (cancel_url (id b)) (cancel_params env cancellation_reason) in
  _find_booking env user_email meeting_date meeting_time t = (Ret (Some b), t1) ->
  respond env t1 cancel_call = Responded cr ->
  (400 <= status_code cr < 600 -> status_code cr <> 429 ->
   exists msg,
     cancel_user_booking env user_email meeting_date meeting_time
       cancellation_reason t =
     (Ret ("Error cancelling booking or deleting reference: " +:+ msg),
      t1 ++ [EvRequest cancel_call])) /\
  (no_error_status cr -> status_code cr <> 200 ->
   cancel_user_booking env user_email meeting_date meeting_time
     cancellation_reason t =
   (Ret ("Error cancelling booking: "
         +:+ default "Unknown error" (message (body cr))),
    t1 ++ [EvRequest cancel_call])).
Proof.
  intros cancel_call Hfind Hcr. split.
  - intros Herr Hne.
    destruct (make_api_request_http_error env cancel_call cr t1 Hcr Herr Hne)
      as [msg Hreq].
    exists msg. unfold cancel_user_booking. unfold bind at 1. rewrite Hfind.
    unfold try_except. unfold bind at 1.
    fold (cancel_params env cancellation_reason). fold cancel_call.
    rewrite Hreq. reflexivity.
  - intros Hok Hne.
    unfold cancel_user_booking. unfold bind at 1. rewrite Hfind.
    unfold try_except. unfold bind at 1.
    fold (cancel_params env cancellation_reason). fold cancel_call.
    rewrite (make_api_request_first_try env cancel_call cr t1 Hcr Hok).
    simpl. unfold bind at 1. simpl.
    destruct (Z.eqb_spec (status_code cr) 200); [contradiction|reflexivity].
Qed.

Lemma cancel_call_not_accepted_witness :
  exists msg,
    fst (cancel_user_booking
           (sample_env
              (routes
                 [(GET, booking_references_url, ok (references_body [reference_7]));
                  (GET, booking_url 101, ok (booking_body booking_101))]
                 (Responded server_error)))
           "alice@example.com" "2030-10-11" "09:00" None []) =
    Ret ("Error cancelling booking or deleting reference: " +:+ msg).
Proof.
  destruct (cancel_call_not_accepted
              (sample_env
                 (routes
                    [(GET, booking_references_url,
                      ok (references_body [reference_7]));
                     (GET, booking_url 101, ok (booking_body booking_101))]
                    (Responded server_error)))
              "alice@example.com" "2030-10-11" "09:00" None booking_101
              server_error []
              [EvRequest (get_request one_booking booking_references_url);
               EvRequest (get_request one_booking (booking_url 101))])
    as [Hrejected _].
  - vm_compute. reflexivity.
  - vm_compute. reflexivity.
  - destruct Hrejected as [msg Hmsg]; [simpl; lia|simpl; lia|].
    exists msg. rewrite Hmsg. reflexivity.
Defined.

(** When the user is the first attendee of each of the user's bookings
    and none of them reads the requested date and time on the user's clock,
    cancel returns the not-found message and has sent nothing but the GET
    requests of the enumeration: no DELETE. *)
Theorem cancel_without_match_on_own_clock (env : Env)
    (user_email meeting_date meeting_time : string)
    (cancellation_reason : option string) (l : list Booking)
    (t t' : list Event) :
  _get_user_bookings_detailed env user_email t = (Ret l, t') ->
  (forall b, In b l ->
     exists a rest, attendees b = a :: rest /\ email a = user_email) ->
  (forall b, In b l ->
     localized_minute user_email b <>
     Some (meeting_date +:+ "T" +:+ meeting_time +:+ ":00")) ->
  cancel_user_booking env user_email meeting_date meeting_time
    cancellation_reason t =
  (Ret ("Error: No booking found for " +:+ user_email +:+ " on "
        +:+ meeting_date +:+ " at " +:+ meeting_time), t') /\
  exists s, t' = t ++ s /\ Forall (fun e => ~ is_request DELETE e) s.
Proof.
  intros Hrun Hfirst_att Hnone.
  destruct (spec_run _ _ _ _ _ _ _
              (spec_get_user_bookings_detailed env user_email) Hrun)
    as [_ Hl].
  destruct (find_matching_first user_email
              (meeting_date +:+ "T" +:+ meeting_time +:+ ":00") l t' Hl)
    as (o & Hfind & Hfirst).
  apply cancel_not_found_sends_no_delete.
  unfold _find_booking, bind. rewrite Hrun, Hfind.
  destruct o as [x|]; [exfalso|reflexivity].
  destruct Hfirst as (l1 & l2 & -> & Hx & _).
  assert (Hin : In x (l1 ++ x :: l2)) by (apply in_or_app; right; now left).
  destruct (Hfirst_att x Hin) as (a & rest & Ha & He).
  apply (Hnone x Hin).
  now apply (first_zone_is_own_zone user_email _ x a rest).
Qed.

Lemma cancel_without_match_on_own_clock_witness :
  let sent :=
    [EvRequest (get_request one_booking booking_references_url);
     EvRequest (get_request one_booking (booking_url 101))] in
  cancel_user_booking one_booking "alice@example.com" "2030-10-11" "10:00"
    None [] =
  (Ret "Error: No booking found for alice@example.com on 2030-10-11 at 10:00",
   sent) /\
  exists s, sent = [] ++ s /\ Forall (fun e => ~ is_request DELETE e) s.
Proof.
  intros sent.
  apply (cancel_without_match_on_own_clock one_booking "alice@example.com"
           "2030-10-11" "10:00" None [booking_101] [] sent).
  - vm_compute. reflexivity.
  - intros b [<-|[]]. exists alice, []. split; reflexivity.
  - intros b [<-|[]]. vm_compute. discriminate.
Defined.

(** ** Rescheduling *)

(** When the lookup finds the booking, the new start and the new end
    resolve, the start is not in the past, and the service answers the PATCH
    without an error status, reschedule sends that one PATCH after the
    lookup and returns the body of the response, which the tool hands back
    in its success text. *)
Theorem reschedule_success (env : Env)
    (user_email meeting_date meeting_time : string)
    (new_date new_time : option string) (new_duration : option Z)
    (b : Booking) (a : Attendee) (rest : list Attendee)
    (start_time end_time : datetime) (r : Response) (t t1 : list Event) :
  let patch := patch_request env (id b) start_time end_time in
  truthy_str new_date || truthy_str new_time || truthy_int new_duration = true ->
  _find_booking env user_email meeting_date meeting_time t = (Ret (Some b), t1) ->
  attendees b = a :: rest ->
  new_start_time b (timeZone a) meeting_date meeting_time new_date new_time
    = Ret start_time ->
  new_end_time b start_time new_duration = Ret end_time ->
  now_utc env t1 <= instant start_time ->
  respond env t1 patch = Responded r ->
  no_error_status r ->
  reschedule_booking env user_email meeting_date meeting_time
    new_date new_time new_duration t =
    (Ret (Some (body r)), t1 ++ [EvRequest patch]) /\
  CalComRescheduleBookingTool_run env user_email meeting_date meeting_time
    new_date new_time new_duration t =
    (Ret [Lit "Booking rescheduled successfully. Updated booking details: ";
          ReprBody (Some (body r))], t1 ++ [EvRequest patch]).
Proof.
  intros patch Hnew Hfind Hatt Hstart Hend Hfuture Hr Hok.
  assert (Hrun : reschedule_booking env user_email meeting_date meeting_time
                   new_date new_time new_duration t =
                 (Ret (Some (body r)), t1 ++ [EvRequest patch])).
  { unfold reschedule_booking, retry_with_backoff.
    change (Z.to_nat max_retries) with 5%nat.
    apply retry_loop_ret.
    rewrite (reschedule_body_resolved env user_email meeting_date meeting_time
               new_date new_time new_duration b a rest start_time end_time t t1)
      by assumption.
    replace (instant start_time <? now_utc env t1) with false by lia.
    fold patch. unfold try_except, bind, requests_request, raise_for_status.
    rewrite Hr. unfold no_error_status in Hok.
    replace ((400 <=? status_code r) && (status_code r <? 500)) with false by lia.
    replace ((500 <=? status_code r) && (status_code r <? 600)) with false by lia.
    reflexivity. }
  split; [exact Hrun|].
  unfold CalComRescheduleBookingTool_run, wrap_exception, try_except.
  unfold bind at 1. rewrite Hrun. reflexivity.
Qed.

Lemma reschedule_success_witness :
  fst (reschedule_booking one_booking "alice@example.com" "2030-10-11" "09:00"
         (Some "2030-10-12") None None []) = Ret (Some no_body).
Proof.
  destruct (reschedule_success one_booking "alice@example.com" "2030-10-11"
              "09:00" (Some "2030-10-12") None None booking_101 alice []
              {| wall := wall_of_civil 2030 10 12 9 0;
                 tzinfo := Some (at_wall singapore 0) |}
              {| wall := wall_of_civil 2030 10 12 10 0;
                 tzinfo := Some (at_wall singapore 0) |}
              {| status_code := 200; reason_phrase := "OK"; body := no_body |}
              []
              [EvRequest (get_request one_booking booking_references_url);
               EvRequest (get_request one_booking (booking_url 101))])
    as [Hrun _].
  - reflexivity.
  - vm_compute. reflexivity.
  - reflexivity.
  - vm_compute. reflexivity.
  - vm_compute. reflexivity.
  - vm_compute. discriminate.
  - vm_compute. reflexivity.
  - unfold no_error_status. simpl. lia.
  - rewrite Hrun. reflexivity.
Defined.

(** When the service answers the PATCH with 429 on an attempt that is not
    the last, reschedule sleeps for the current delay plus the random value
    and runs its whole body again, the lookup included. *)
Theorem reschedule_rate_limited_update_restarts (env : Env)
    (user_email meeting_date meeting_time : string)
    (new_date new_time : option string) (new_duration : option Z)
    (b : Booking) (a : Attendee) (rest : list Attendee)
    (start_time end_time : datetime) (r : Response) (t t1 : list Event) :
  let patch := patch_request env (id b) start_time end_time in
  let body_ :=
    reschedule_booking_body env user_email meeting_date meeting_time
      new_date new_time new_duration in
  truthy_str new_date || truthy_str new_time || truthy_int new_duration = true ->
  _find_booking env user_email meeting_date meeting_time t = (Ret (Some b), t1) ->
  attendees b = a :: rest ->
  new_start_time b (timeZone a) meeting_date meeting_time new_date new_time
    = Ret start_time ->
  new_end_time b start_time new_duration = Ret end_time ->
  now_utc env t1 <= instant start_time ->
  respond env t1 patch = Responded r ->
  status_code r = 429 ->
  reschedule_booking env user_email meeting_date meeting_time
    new_date new_time new_duration t =
  retry_loop env body_ 4 1 2
    (t1 ++ [EvRequest patch]
        ++ [EvSleep (inject_Z 1 + uniform01 env (t1 ++ [EvRequest patch]))%Q]).
Proof.
  intros patch body_ Hnew Hfind Hatt Hstart Hend Hfuture Hr H429.
  destruct (patch_rejected env patch (booking_url (id b)) r t1 Hr)
    as [msg Hpatch]; [lia|].
  unfold reschedule_booking, retry_with_backoff.
  change (Z.to_nat max_retries) with 5%nat. fold body_.
  rewrite (retry_loop_retry env body_ 4 0 1 t (t1 ++ [EvRequest patch]) msg r).
  - rewrite <- app_assoc. reflexivity.
  - unfold body_.
    rewrite (reschedule_body_resolved env user_email meeting_date meeting_time
               new_date new_time new_duration b a rest start_time end_time t t1)
      by assumption.
    replace (instant start_time <? now_utc env t1) with false by lia.
    exact Hpatch.
  - exact H429.
  - unfold max_retries. lia.
Qed.

(** When the PATCH cannot be delivered, the handler of line 415 reads the
    unbound [response]: what reschedule raises is an [UnboundLocalError], not
    the exception of the transport, and the tool reports that. *)
Theorem reschedule_undelivered_update (env : Env)
    (user_email meeting_date meeting_time : string)
    (new_date new_time : option string) (new_duration : option Z)
    (b : Booking) (a : Attendee) (rest : list Attendee)
    (start_time end_time : datetime) (failure : string) (t t1 : list Event) :
  let patch := patch_request env (id b) start_time end_time in
  truthy_str new_date || truthy_str new_time || truthy_int new_duration = true ->
  _find_booking env user_email meeting_date meeting_time t = (Ret (Some b), t1) ->
  attendees b = a :: rest ->
  new_start_time b (timeZone a) meeting_date meeting_time new_date new_time
    = Ret start_time ->
  new_end_time b start_time new_duration = Ret end_time ->
  now_utc env t1 <= instant start_time ->
  respond env t1 patch = Failed failure ->
  exists msg,
    reschedule_booking env user_email meeting_date meeting_time
      new_date new_time new_duration t =
      (Raise (UnboundLocalError msg), t1 ++ [EvRequest patch]) /\
    CalComRescheduleBookingTool_run env user_email meeting_date meeting_time
      new_date new_time new_duration t =
      (Raise (ToolException
                ("An error occurred while rescheduling the booking: " +:+ msg)),
       t1 ++ [EvRequest patch]).
Proof.
  intros patch Hnew Hfind Hatt Hstart Hend Hfuture Hr.
  eexists.
  assert (Hrun : reschedule_booking env user_email meeting_date meeting_time
                   new_date new_time new_duration t =
                 (Raise (UnboundLocalError
                    "cannot access local variable 'response' where it is not associated with a value"),
                  t1 ++ [EvRequest patch])).
  { apply retry_with_backoff_other; [|discriminate].
    rewrite (reschedule_body_resolved env user_email meeting_date meeting_time
               new_date new_time new_duration b a rest start_time end_time t t1)
      by assumption.
    replace (instant start_time <? now_utc env t1) with false by lia.
    fold patch. unfold try_except, bind, requests_request.
    rewrite Hr. reflexivity. }
  split; [exact Hrun|].
  unfold CalComRescheduleBookingTool_run, wrap_exception, try_except.
  unfold bind at 1. rewrite Hrun. reflexivity.
Qed.

Lemma reschedule_undelivered_update_witness :
  exists msg,
    fst (reschedule_booking update_undelivered "alice@example.com"
           "2030-10-11" "09:00" None (Some "11:00") None []) =
    Raise (UnboundLocalError msg).
Proof.
  destruct (reschedule_undelivered_update update_undelivered
              "alice@example.com" "2030-10-11" "09:00" None (Some "11:00")
              None booking_101 alice []
              {| wall := wall_of_civil 2030 10 11 11 0;
                 tzinfo := Some (at_wall singapore 0) |}
              {| wall := wall_of_civil 2030 10 11 12 0;
                 tzinfo := Some (at_wall singapore 0) |}
              "Connection reset by peer" []
              [EvRequest (get_request update_undelivered booking_references_url);
               EvRequest (get_request update_undelivered (booking_url 101))])
    as (msg & Hrun & _).
  - reflexivity.
  - vm_compute. reflexivity.
  - reflexivity.
  - vm_compute. reflexivity.
  - vm_compute. reflexivity.
  - vm_compute. discriminate.
  - vm_compute. reflexivity.
  - exists msg. rewrite Hrun. reflexivity.
Defined.

Lemma reschedule_rate_limited_update_restarts_witness :
  let t1 :=
    [EvRequest (get_request update_rate_limited booking_references_url);
     EvRequest (get_request update_rate_limited (booking_url 101))] in
  let start_time :=
    {| wall := wall_of_civil 2030 10 11 11 0;
       tzinfo := Some (at_wall singapore 0) |} in
  let end_time :=
    {| wall := wall_of_civil 2030 10 11 12 0;
       tzinfo := Some (at_wall singapore 0) |} in
  let patch := patch_request update_rate_limited 101 start_time end_time in
  reschedule_booking update_rate_limited "alice@example.com" "2030-10-11"
    "09:00" None (Some "11:00") None [] =
  retry_loop update_rate_limited
    (reschedule_booking_body update_rate_limited "alice@example.com"
       "2030-10-11" "09:00" None (Some "11:00") None)
    4 1 2
    (t1 ++ [EvRequest patch]
        ++ [EvSleep (inject_Z 1
                     + uniform01 update_rate_limited (t1 ++ [EvRequest patch]))%Q]).
Proof.
  intros t1 start_time end_time patch.
  apply (reschedule_rate_limited_update_restarts update_rate_limited
           "alice@example.com" "2030-10-11" "09:00" None (Some "11:00") None
           booking_101 alice [] start_time end_time too_many_requests [] t1).
  - reflexivity.
  - vm_compute. reflexivity.
  - reflexivity.
  - vm_compute. reflexivity.
  - vm_compute. reflexivity.
  - vm_compute. discriminate.
  - vm_compute. reflexivity.
  - reflexivity.
Defined.

(** ** Sweep of the references of cancelled bookings *)

Lemma spec_remove_cancelled_loop (env : Env) (refs0 refs : list Reference) :
  (forall ref, In ref refs -> In ref refs0) ->
  forall acc,
    spec (remove_cancelled_loop env refs acc) (sweeps_only env refs0)
         (fun _ => True) (fun e => is_RequestException e = true).
Proof.
  induction refs as [|reference rest IH]; intros Hsub acc; simpl.
  - now apply spec_ret.
  - assert (Hrest : forall ref, In ref rest -> In ref refs0)
      by (intros ref Href; apply Hsub; now right).
    assert (Hhere : In reference refs0) by (apply Hsub; now left).
    eapply spec_bind.
    + apply spec_weaken
        with (E := request_is (get_request env (booking_url (bookingId reference))))
             (V := fun o => exists r, o = Some r)
             (X := fun e => is_RequestException e = true).
      * apply spec_make_api_request.
      * intros [q|d]; simpl; [|auto]. intros ->. exists reference. auto.
      * intros o Ho. exact Ho.
      * intros e He. exact He.
    + intros o [r ->]. simpl.
      eapply spec_bind; [apply spec_ret with (V := fun _ => True); exact I|].
      intros r' _. destruct (is_cancelled (booking (body r'))); [|now apply IH].
      eapply spec_bind.
      * apply spec_weaken
          with (E := request_is (delete_request (reference_url (ref_id reference))
                                   (api_key_params env)))
               (V := fun o => exists r, o = Some r)
               (X := fun e => is_RequestException e = true).
        -- apply spec_make_api_request.
        -- intros [q|d]; simpl; [|auto]. intros ->. exists reference. auto.
        -- intros o Ho. exact Ho.
        -- intros e He. exact He.
      * intros o [dr ->]. simpl.
        eapply spec_bind; [apply spec_ret with (V := fun _ => True); exact I|].
        intros dr' _. destruct (status_code dr' =? 200); now apply IH.
Qed.

(** The sweep raises nothing: it always returns a text.  After the list of
    references it sends only the GET of the booking of a listed reference and
    the deletion of a listed reference: it cancels, creates and updates
    nothing. *)
Theorem reference_sweep_touches_only_listed (env : Env) (t : list Event) :
  returns (_remove_cancelled_booking_references env) t /\
  forall r t1,
    make_api_request env (get_request env booking_references_url) t =
      (Ret (Some r), t1) ->
    exists s,
      snd (_remove_cancelled_booking_references env t) = t1 ++ s /\
      Forall (sweeps_only env (default [] (booking_references (body r)))) s.
Proof.
  split.
  - eapply spec_returns with (E := fun _ => True) (V := fun _ => True).
    unfold _remove_cancelled_booking_references.
    eapply spec_try_except with (X := fun e => is_RequestException e = true).
    + eapply spec_bind; [apply spec_transport|]. intros o [r ->]. simpl.
      eapply spec_bind; [apply spec_ret with (V := fun _ => True); exact I|].
      intros r' _. eapply spec_bind with (V := fun _ => True).
      * apply spec_weaken
          with (E := sweeps_only env (default [] (booking_references (body r'))))
               (V := fun _ => True)
               (X := fun e => is_RequestException e = true); auto.
        apply spec_remove_cancelled_loop. auto.
      * intros n _. now apply spec_ret.
    + intros e He. rewrite He. now apply spec_ret.
  - intros r t1 Hrefs.
    destruct (spec_remove_cancelled_loop env
                (default [] (booking_references (body r)))
                (default [] (booking_references (body r)))
                (fun ref H => H) 0 t1) as (s & Hs & HE & Ho).
    exists s. split; [|exact HE].
    unfold _remove_cancelled_booking_references, try_except. unfold bind at 1.
    rewrite Hrefs. simpl. unfold bind at 1. simpl. unfold bind at 1.
    destruct (remove_cancelled_loop env _ 0 t1) as [[n|e] t2]; simpl in *;
      [exact Hs|].
    rewrite Ho. exact Hs.
Qed.

Lemma reference_sweep_touches_only_listed_witness :
  exists s,
    snd (_remove_cancelled_booking_references with_cancelled []) =
      [EvRequest (get_request with_cancelled booking_references_url)] ++ s /\
    Forall (sweeps_only with_cancelled [reference_7; reference_9]) s.
Proof.
  destruct (reference_sweep_touches_only_listed with_cancelled []) as [_ H].
  apply (H {| status_code := 200; reason_phrase := "OK";
              body := references_body [reference_7; reference_9] |}).
  vm_compute. reflexivity.
Defined.

Lemma remove_cancelled_loop_counts (env : Env) (detail : Z -> Response)
    (refs : list Reference) :
  (forall h ref, In ref refs ->
     respond env h (get_request env (booking_url (bookingId ref))) =
       Responded (detail (bookingId ref)) /\
     no_error_status (detail (bookingId ref))) ->
  (forall h ref, In ref refs ->
     exists dr,
       respond env h
         (delete_request (reference_url (ref_id ref)) (api_key_params env))
         = Responded dr /\ status_code dr = 200) ->
  forall acc t, exists t',
    remove_cancelled_loop env refs acc t =
    (Ret (acc + Z.of_nat (length
            (List.filter
               (fun ref => is_cancelled (booking (body (detail (bookingId ref)))))
               refs))), t').
Proof.
  induction refs as [|reference rest IH]; intros Hget Hdel acc t.
  - exists t. simpl. now rewrite Z.add_0_r.
  - assert (Hget' : forall h ref, In ref rest ->
              respond env h (get_request env (booking_url (bookingId ref))) =
                Responded (detail (bookingId ref)) /\
              no_error_status (detail (bookingId ref)))
      by (intros h ref Href; apply Hget; now right).
    assert (Hdel' : forall h ref, In ref rest ->
              exists dr,
                respond env h
                  (delete_request (reference_url (ref_id ref))
                     (api_key_params env)) = Responded dr /\
                status_code dr = 200)
      by (intros h ref Href; apply Hdel; now right).
    destruct (Hget t reference) as [Hr Hok]; [now left|].
    simpl. unfold bind at 1.
    rewrite (make_api_request_first_try env _ _ t Hr Hok). simpl.
    unfold bind at 1. simpl.
    destruct (is_cancelled (booking (body (detail (bookingId reference))))).
    + destruct (Hdel (t ++ [EvRequest (get_request env
                                         (booking_url (bookingId reference)))])
                  reference) as (dr & Hdr & H200); [now left|].
      unfold bind at 1.
      rewrite (make_api_request_first_try env _ dr _ Hdr)
        by (unfold no_error_status; lia).
      simpl. unfold bind at 1. simpl. rewrite H200. simpl.
      destruct (IH Hget' Hdel' (acc + 1)
                  ((t ++ [EvRequest (get_request env
                                       (booking_url (bookingId reference)))]) ++
                   [EvRequest (delete_request
                                 (reference_url (ref_id reference))
                                 (api_key_params env))])) as [t' Hrun].
      exists t'. rewrite Hrun. f_equal. f_equal. lia.
    + apply IH; assumption.
Qed.

(** On a service that delivers the list of references, answers the GET of
    each referenced booking without error and each deletion with 200, the
    sweep reports as removed the number of listed references whose booking
    is cancelled (a booking referenced twice counts twice, and references
    marked deleted are swept like the others). *)
Theorem reference_sweep_counts_cancelled (env : Env) (detail : Z -> Response)
    (r : Response) (t t1 : list Event) :
  let refs := default [] (booking_references (body r)) in
  make_api_request env (get_request env booking_references_url) t =
    (Ret (Some r), t1) ->
  (forall h ref, In ref refs ->
     respond env h (get_request env (booking_url (bookingId ref))) =
       Responded (detail (bookingId ref)) /\
     no_error_status (detail (bookingId ref))) ->
  (forall h ref, In ref refs ->
     exists dr,
       respond env h
         (delete_request (reference_url (ref_id ref)) (api_key_params env))
         = Responded dr /\ status_code dr = 200) ->
  fst (_remove_cancelled_booking_references env t) =
  Ret ("Successfully removed "
       +:+ str_of_Z (Z.of_nat (length
             (List.filter
                (fun ref => is_cancelled (booking (body (detail (bookingId ref)))))
                refs)))
       +:+ " cancelled booking references.").
Proof.
  intros refs Hrefs Hget Hdel.
  destruct (remove_cancelled_loop_counts env detail refs Hget Hdel 0 t1)
    as [t' Hrun].
  unfold _remove_cancelled_booking_references, try_except. unfold bind at 1.
  rewrite Hrefs. simpl. unfold bind at 1. simpl. unfold bind at 1.
  fold refs. rewrite Hrun. reflexivity.
Qed.

Lemma reference_sweep_counts_cancelled_witness :
  fst (_remove_cancelled_booking_references with_cancelled []) =
  Ret "Successfully removed 1 cancelled booking references.".
Proof.
  rewrite (reference_sweep_counts_cancelled with_cancelled
             (fun i => {| status_code := 200; reason_phrase := "OK";
                          body := booking_body
                                    (if i =? 103 then booking_103
                                     else booking_101) |})
             {| status_code := 200; reason_phrase := "OK";
                body := references_body [reference_7; reference_9] |}
             []
             [EvRequest (get_request with_cancelled booking_references_url)]).
  - reflexivity.
  - vm_compute. reflexivity.
  - intros h ref [<-|[<-|[]]]; (split; [reflexivity|]);
      unfold no_error_status; simpl; lia.
  - intros h ref [<-|[<-|[]]];
      exists {| status_code := 200; reason_phrase := "OK"; body := no_body |};
      split; reflexivity.
Defined.

(** The sweep does not skip a failed deletion: when the deletion of a
    reference of a cancelled booking is answered with an error status other
    than 429, the sweep stops there and returns the error text. *)
Theorem reference_sweep_stops_at_failed_delete (env : Env)
    (reference : Reference) (rest : list Reference) (r rb dr : Response)
    (t t1 : list Event) :
  let fetch := get_request env (booking_url (bookingId reference)) in
  let delete :=
    delete_request (reference_url (ref_id reference)) (api_key_params env) in
  make_api_request env (get_request env booking_references_url) t =
    (Ret (Some r), t1) ->
  default [] (booking_references (body r)) = reference :: rest ->
  respond env t1 fetch = Responded rb -> no_error_status rb ->
  is_cancelled (booking (body rb)) = true ->
  respond env (t1 ++ [EvRequest fetch]) delete = Responded dr ->
  400 <= status_code dr < 600 -> status_code dr <> 429 ->
  exists msg,
    _remove_cancelled_booking_references env t =
    (Ret ("Error removing cancelled booking references: " +:+ msg),
     (t1 ++ [EvRequest fetch]) ++ [EvRequest delete]).
Proof.
  intros fetch delete Hrefs Hlist Hrb Hok Hcancelled Hdr Herr Hne.
  destruct (make_api_request_http_error env delete dr _ Hdr Herr Hne)
    as [msg Hdelete].
  exists msg.
  unfold _remove_cancelled_booking_references, try_except. unfold bind at 1.
  rewrite Hrefs. simpl. unfold bind at 1. simpl. unfold bind at 1.
  rewrite Hlist. simpl. unfold bind at 1. fold fetch.
  rewrite (make_api_request_first_try env fetch rb t1 Hrb Hok). simpl.
  unfold bind at 1. simpl. rewrite Hcancelled.
  unfold bind at 1. fold delete. rewrite Hdelete. reflexivity.
Qed.

Lemma reference_sweep_stops_at_failed_delete_witness :
  exists msg,
    fst (_remove_cancelled_booking_references
           (sample_env
              (routes
                 [(GET, booking_references_url,
                   ok (references_body [reference_9; reference_7]));
                  (GET, booking_url 103, ok (booking_body booking_103))]
                 (Responded server_error))) []) =
    Ret ("Error removing cancelled booking references: " +:+ msg).
Proof.
  destruct (reference_sweep_stops_at_failed_delete
              (sample_env
                 (routes
                    [(GET, booking_references_url,
                      ok (references_body [reference_9; reference_7]));
                     (GET, booking_url 103, ok (booking_body booking_103))]
                    (Responded server_error)))
              reference_9 [reference_7]
              {| status_code := 200; reason_phrase := "OK";
                 body := references_body [reference_9; reference_7] |}
              {| status_code := 200; reason_phrase := "OK";
                 body := booking_body booking_103 |}
              server_error []
              [EvRequest (get_request one_booking booking_references_url)])
    as [msg Hrun].
  - vm_compute. reflexivity.
  - reflexivity.
  - vm_compute. reflexivity.
  - unfold no_error_status. simpl. lia.
  - reflexivity.
  - vm_compute. reflexivity.
  - simpl. lia.
  - simpl. lia.
  - exists msg. rewrite Hrun. reflexivity.
Defined.
